(** * ipydataclean: the notebook panel of [dataclean/static/main.js]

    A shallow embedding of the front-end extension: the summary renderer
    [html_table], the widget loaders [display_column_widget] and
    [display_pipeline_widget], the reply handlers [code_exec_callback] and
    [display_widgets], the poller [varRefresh], [datacleaner_init] and the
    panel toggle [toggle_datacleaner].

    The browser is modelled as far as the script observes it: the
    elements that [html_table] writes into [#datacleaner] (a tree, with the
    class lists and ids the markup gives them), the wrapper nodes the
    loaders create, the badge of the toolbar button, the calls made to
    [Jupyter.notebook.kernel.execute], the console, the notebook metadata
    and the callbacks that the script defers ([require], promise and
    animation callbacks).  What lies outside (the selector engine on ids
    that are not plain words, numbers that need floating point, the
    tablesorter plugin) is reported as [OutOfModel], never guessed. *)

From Stdlib Require Import ZArith String Ascii List Bool Lia DecimalString.
From stdpp Require Import base list strings.

Set Warnings "-register-all,-clear-no-such-hyp".
Open Scope string_scope.
Open Scope list_scope.

(** ** JavaScript values and [JSON.parse] *)

Module JS.

(** The values [JSON.parse] can return, and [undefined].  A number
    literal without fraction or exponent and with at most 15 digits is an
    exact integer; any other number keeps its lexeme, and its numeric
    value (a double) is outside the model. *)
Inductive value :=
| VUndefined
| VNull
| VBool (b : bool)
| VNum (z : Z)
| VFloat (lexeme : string)
| VStr (s : string)
| VArr (items : list value)
| VObj (props : list (string * value)).

Inductive error := SyntaxError | TypeError.

(** Outcome of a computation that reads no state. *)
Inductive result (A : Type) :=
| Val (a : A)
| Raise (e : error)
| OutOfModel.
Arguments Val {A} a.
Arguments Raise {A} e.
Arguments OutOfModel {A}.

Definition rbind {A B} (m : result A) (k : A -> result B) : result B :=
  match m with
  | Val a => k a
  | Raise e => Raise e
  | OutOfModel => OutOfModel
  end.

#[global] Instance result_bind : MBind result := fun A B k m => rbind m k.
#[global] Instance result_ret : MRet result := @Val.

(** *** Lexical helpers *)

(** The double quote. *)
Definition dquote : ascii := ascii_of_nat 34.

Definition is_ws (c : ascii) : bool :=
  let n := nat_of_ascii c in
  Nat.eqb n 32 || Nat.eqb n 9 || Nat.eqb n 10 || Nat.eqb n 13.

Definition is_digit (c : ascii) : bool :=
  let n := nat_of_ascii c in Nat.leb 48 n && Nat.leb n 57.

Fixpoint skip_ws (s : string) : string :=
  match s with
  | String c r => if is_ws c then skip_ws r else s
  | EmptyString => s
  end.

Fixpoint strip_prefix (p s : string) : option string :=
  match p, s with
  | EmptyString, _ => Some s
  | String a p', String b s' =>
      if Ascii.eqb a b then strip_prefix p' s' else None
  | String _ _, EmptyString => None
  end.

Fixpoint take_digits (s : string) : string * string :=
  match s with
  | String c r =>
      if is_digit c
      then let '(d, r') := take_digits r in (String c d, r')
      else (EmptyString, s)
  | EmptyString => (EmptyString, s)
  end.

Fixpoint digits_value (acc : Z) (s : string) : Z :=
  match s with
  | String c r => digits_value (10 * acc + Z.of_nat (nat_of_ascii c - 48))%Z r
  | EmptyString => acc
  end.

Definition hex_digit (c : ascii) : option nat :=
  let n := nat_of_ascii c in
  if Nat.leb 48 n && Nat.leb n 57 then Some (n - 48)
  else if Nat.leb 65 n && Nat.leb n 70 then Some (n - 55)
  else if Nat.leb 97 n && Nat.leb n 102 then Some (n - 87)
  else None.

(** *** Numbers: an optional minus sign; then 0, or a non-zero digit and
    digits; then optionally a point and digits; then optionally e or E, a
    sign and digits. *)

Definition parse_number (s : string) : result (value * string) :=
  let '(neg, s1) :=
    match s with
    | String "-" r => (true, r)
    | _ => (false, s)
    end in
  let '(ip, s2) :=
    match s1 with
    | String "0" r => ("0", r)
    | _ => take_digits s1
    end in
  if String.eqb ip "" then Raise SyntaxError else
  '(fp, s3) ←
    match s2 with
    | String "." r =>
        let '(d, r') := take_digits r in
        if String.eqb d "" then Raise SyntaxError
        else Val ("." +:+ d, r')
    | _ => Val ("", s2)
    end;
  '(ep, s4) ←
    match s3 with
    | String c r =>
        if Ascii.eqb c "e" || Ascii.eqb c "E" then
          let '(sg, r1) :=
            match r with
            | String "+" r1 => ("+", r1)
            | String "-" r1 => ("-", r1)
            | _ => ("", r)
            end in
          let '(d, r') := take_digits r1 in
          if String.eqb d "" then Raise SyntaxError
          else Val (String c sg +:+ d, r')
        else Val ("", s3)
    | EmptyString => Val ("", s3)
    end;
  if String.eqb fp "" && String.eqb ep "" && Nat.leb (String.length ip) 15
  then Val (VNum (if neg then (- digits_value 0 ip)%Z else digits_value 0 ip), s4)
  else Val (VFloat ((if neg then "-" else "") +:+ ip +:+ fp +:+ ep), s4).

(** *** Strings: the characters after the opening quote.  An escape
    [\uXXXX] is decoded below 128; above, the character is outside the
    byte strings of the model. *)

Fixpoint parse_string_body (s : string) : result (string * string) :=
  match s with
  | EmptyString => Raise SyntaxError
  | String c r =>
      if Ascii.eqb c dquote then Val (EmptyString, r)
      else if Ascii.eqb c "\" then
        match r with
        | EmptyString => Raise SyntaxError
        | String e r' =>
            let simple (x : ascii) :=
              ('(t, rest) ← parse_string_body r'; Val (String x t, rest)) in
            if Ascii.eqb e dquote then simple dquote
            else if Ascii.eqb e "\" then simple "\"%char
            else if Ascii.eqb e "/" then simple "/"%char
            else if Ascii.eqb e "b" then simple (ascii_of_nat 8)
            else if Ascii.eqb e "f" then simple (ascii_of_nat 12)
            else if Ascii.eqb e "n" then simple (ascii_of_nat 10)
            else if Ascii.eqb e "r" then simple (ascii_of_nat 13)
            else if Ascii.eqb e "t" then simple (ascii_of_nat 9)
            else if Ascii.eqb e "u" then
              match r' with
              | String h1 (String h2 (String h3 (String h4 r''))) =>
                  match hex_digit h1, hex_digit h2, hex_digit h3, hex_digit h4 with
                  | Some a, Some b, Some c', Some d =>
                      let code := ((a * 16 + b) * 16 + c') * 16 + d in
                      if Nat.ltb code 128 then
                        '(t, rest) ← parse_string_body r'';
                        Val (String (ascii_of_nat code) t, rest)
                      else OutOfModel
                  | _, _, _, _ => Raise SyntaxError
                  end
              | _ => Raise SyntaxError
              end
            else Raise SyntaxError
        end
      else if Nat.ltb (nat_of_ascii c) 32 then Raise SyntaxError
      else '(t, rest) ← parse_string_body r; Val (String c t, rest)
  end.

(** *** Values.  Every call spends one unit of fuel; between two nested
    calls at least one character is consumed every second call, so
    [2 * length + 2] units are enough for any text. *)

Fixpoint parse_value (fuel : nat) (s : string) : result (value * string) :=
  match fuel with
  | O => OutOfModel
  | S f =>
      match skip_ws s with
      | EmptyString => Raise SyntaxError
      | String c r =>
          if Ascii.eqb c "[" then
            match skip_ws r with
            | String "]" r' => Val (VArr [], r')
            | _ => '(vs, r') ← parse_elements f r; Val (VArr vs, r')
            end
          else if Ascii.eqb c "{" then
            match skip_ws r with
            | String "}" r' => Val (VObj [], r')
            | _ => '(ms, r') ← parse_members f r; Val (VObj ms, r')
            end
          else if Ascii.eqb c dquote then
            '(str, r') ← parse_string_body r; Val (VStr str, r')
          else if Ascii.eqb c "t" then
            match strip_prefix "rue" r with
            | Some r' => Val (VBool true, r')
            | None => Raise SyntaxError
            end
          else if Ascii.eqb c "f" then
            match strip_prefix "alse" r with
            | Some r' => Val (VBool false, r')
            | None => Raise SyntaxError
            end
          else if Ascii.eqb c "n" then
            match strip_prefix "ull" r with
            | Some r' => Val (VNull, r')
            | None => Raise SyntaxError
            end
          else if Ascii.eqb c "-" || is_digit c then parse_number (String c r)
          else Raise SyntaxError
      end
  end
with parse_elements (fuel : nat) (s : string) : result (list value * string) :=
  match fuel with
  | O => OutOfModel
  | S f =>
      '(v, r) ← parse_value f s;
      match skip_ws r with
      | String "," r' =>
          '(vs, r'') ← parse_elements f r'; Val (v :: vs, r'')
      | String "]" r' => Val ([v], r')
      | _ => Raise SyntaxError
      end
  end
with parse_members (fuel : nat) (s : string)
  : result (list (string * value) * string) :=
  match fuel with
  | O => OutOfModel
  | S f =>
      match skip_ws s with
      | String c r =>
          if Ascii.eqb c dquote then
            '(k, r1) ← parse_string_body r;
            match skip_ws r1 with
            | String ":" r2 =>
                '(v, r3) ← parse_value f r2;
                match skip_ws r3 with
                | String "," r' =>
                    '(ms, r'') ← parse_members f r'; Val ((k, v) :: ms, r'')
                | String "}" r' => Val ([(k, v)], r')
                | _ => Raise SyntaxError
                end
            | _ => Raise SyntaxError
            end
          else Raise SyntaxError
      | EmptyString => Raise SyntaxError
      end
  end.

(** [JSON.parse(text)]: one value, then only white space. *)
Definition JSON_parse (text : string) : result value :=
  '(v, r) ← parse_value (2 * String.length text + 2) text;
  match skip_ws r with
  | EmptyString => Val v
  | String _ _ => Raise SyntaxError
  end.

(** *** The conversions and property reads the script performs *)

(** [ToString], as applied by [+] on a string.  An array is joined with
    commas, [null] and [undefined] elements giving the empty string. *)
Fixpoint to_string (v : value) : result string :=
  match v with
  | VUndefined => Val "undefined"
  | VNull => Val "null"
  | VBool b => Val (if b then "true" else "false")
  | VNum z => Val (NilZero.string_of_int (Z.to_int z))
  | VFloat _ => OutOfModel
  | VStr s => Val s
  | VArr l =>
      (fix join (l : list value) : result string :=
         match l with
         | [] => Val ""
         | x :: rest =>
             h ← match x with
                 | VNull | VUndefined => Val ""
                 | _ => to_string x
                 end;
             match rest with
             | [] => Val h
             | _ :: _ => t ← join rest; Val (h +:+ "," +:+ t)
             end
         end) l
  | VObj _ => Val "[object Object]"
  end.

(** The last binding of a key: [JSON.parse] keeps the last duplicate. *)
Fixpoint last_binding (k : string) (props : list (string * value))
  : option value :=
  match props with
  | [] => None
  | (k', v) :: rest =>
      match last_binding k rest with
      | Some w => Some w
      | None => if String.eqb k' k then Some v else None
      end
  end.

(** [v.k] for the property names the script reads ([dfId], [dfName],
    [dfShape], [dfColnames], [dfCols], [colId], [colname],
    [description], [dtype], [null_percentage], [distinct]): none of them
    is an index, [length] or a property of a built-in prototype, so only
    an object can have one. *)
Definition prop (v : value) (k : string) : result value :=
  match v with
  | VUndefined | VNull => Raise TypeError
  | VObj props =>
      Val (match last_binding k props with Some w => w | None => VUndefined end)
  | _ => Val VUndefined
  end.

Fixpoint chars (s : string) : list value :=
  match s with
  | EmptyString => []
  | String c r => VStr (String c EmptyString) :: chars r
  end.

Fixpoint all_ascii (s : string) : bool :=
  match s with
  | EmptyString => true
  | String c r => Nat.ltb (nat_of_ascii c) 128 && all_ascii r
  end.

(** [n = v.length] and the values [v[0]], ..., [v[n-1]] that a loop
    [for (i = 0; i < n; i++)] visits.  [None] is [undefined], for which
    [i < n] is false at once.  An object with a [length] property of its
    own would need [ToNumber] on an arbitrary value. *)
Definition array_like (v : value) : result (option nat * list value) :=
  match v with
  | VUndefined | VNull => Raise TypeError
  | VBool _ | VNum _ | VFloat _ => Val (None, [])
  | VStr s =>
      if all_ascii s then Val (Some (String.length s), chars s) else OutOfModel
  | VArr l => Val (Some (length l), l)
  | VObj props =>
      match last_binding "length" props with
      | None => Val (None, [])
      | Some _ => OutOfModel
      end
  end.

End JS.

(** ** The elements of the panel *)

Module Dom.

(** A [class] attribute, as the list of its tokens. *)
Definition classes := list string.

(** jQuery's [hasClass], [removeClass] (every occurrence) and
    [toggleClass] (remove when present, append otherwise). *)
Definition hasClass (c : string) (cls : classes) : bool :=
  existsb (String.eqb c) cls.

Definition removeClass (c : string) (cls : classes) : classes :=
  List.filter (fun x => negb (String.eqb c x)) cls.

Definition addClass (c : string) (cls : classes) : classes :=
  if hasClass c cls then cls else cls ++ [c].

Definition toggleClass (c : string) (cls : classes) : classes :=
  if hasClass c cls then removeClass c cls else cls ++ [c].

(** What a placeholder cell holds: the text ["Loading widget..."] that
    [html_table] writes, or the wrapper [div] a loader has put there
    (the index of the node in the store of the state). *)
Inductive content :=
| Loading
| Attached (node : nat).

(** A column of a dataframe: the row with the anchor
    [a.toggleColumn#colId] and the four cells, and the child row with the
    placeholder [td#colId_row]. *)
Record Column := {
  col_frame : string;        (* data-frame-id of the anchor *)
  col_id : string;           (* id of the anchor *)
  col_name : JS.value;       (* the four cells show these values as text *)
  col_dtype : JS.value;
  col_nulls : JS.value;
  col_distinct : JS.value;
  col_anchor : classes;      (* class of the anchor *)
  col_row : classes;         (* class of td#colId_row *)
  col_content : content      (* content of td#colId_row *)
}.

(** A dataframe: the row with the anchor [a.toggleDataframe], the child
    row with the placeholder [td#dfId_row], and the child row with
    [td#table_dfId] that holds the table [table#dfId] of the columns. *)
Record Frame := {
  frame_id : string;         (* data-frame-id of the anchor *)
  frame_name : JS.value;     (* the three cells show these values as text *)
  frame_shape : JS.value;
  frame_colnames : JS.value;
  frame_anchor : classes;    (* class of the anchor *)
  frame_row : classes;       (* class of td#dfId_row *)
  frame_content : content;   (* content of td#dfId_row *)
  frame_table : classes;     (* class of td#table_dfId *)
  frame_cols : list Column
}.

(** The elements that carry an id, by their place in the tree. *)
Inductive Ref :=
| AtFrameRow (i : nat)
| AtFrameTable (i : nat)
| AtInnerTable (i : nat)
| AtColumnAnchor (i j : nat)
| AtColumnRow (i j : nat)
| AtFrameWidget (i : nat)        (* the wrapper held by td#dfId_row *)
| AtColumnWidget (i j : nat).    (* the wrapper held by td#colId_row *)

Definition set_col_row (f : classes -> classes) (c : Column) : Column :=
  {| col_frame := col_frame c; col_id := col_id c; col_name := col_name c;
     col_dtype := col_dtype c; col_nulls := col_nulls c;
     col_distinct := col_distinct c; col_anchor := col_anchor c;
     col_row := f (col_row c); col_content := col_content c |}.

Definition set_col_anchor (f : classes -> classes) (c : Column) : Column :=
  {| col_frame := col_frame c; col_id := col_id c; col_name := col_name c;
     col_dtype := col_dtype c; col_nulls := col_nulls c;
     col_distinct := col_distinct c; col_anchor := f (col_anchor c);
     col_row := col_row c; col_content := col_content c |}.

Definition set_col_content (x : content) (c : Column) : Column :=
  {| col_frame := col_frame c; col_id := col_id c; col_name := col_name c;
     col_dtype := col_dtype c; col_nulls := col_nulls c;
     col_distinct := col_distinct c; col_anchor := col_anchor c;
     col_row := col_row c; col_content := x |}.

Definition set_frame_rows (f : classes -> classes) (d : Frame) : Frame :=
  {| frame_id := frame_id d; frame_name := frame_name d;
     frame_shape := frame_shape d; frame_colnames := frame_colnames d;
     frame_anchor := frame_anchor d; frame_row := f (frame_row d);
     frame_content := frame_content d; frame_table := f (frame_table d);
     frame_cols := frame_cols d |}.

Definition set_frame_anchor (f : classes -> classes) (d : Frame) : Frame :=
  {| frame_id := frame_id d; frame_name := frame_name d;
     frame_shape := frame_shape d; frame_colnames := frame_colnames d;
     frame_anchor := f (frame_anchor d); frame_row := frame_row d;
     frame_content := frame_content d; frame_table := frame_table d;
     frame_cols := frame_cols d |}.

Definition set_frame_content (x : content) (d : Frame) : Frame :=
  {| frame_id := frame_id d; frame_name := frame_name d;
     frame_shape := frame_shape d; frame_colnames := frame_colnames d;
     frame_anchor := frame_anchor d; frame_row := frame_row d;
     frame_content := x; frame_table := frame_table d;
     frame_cols := frame_cols d |}.

Definition set_frame_cols (f : list Column -> list Column) (d : Frame) : Frame :=
  {| frame_id := frame_id d; frame_name := frame_name d;
     frame_shape := frame_shape d; frame_colnames := frame_colnames d;
     frame_anchor := frame_anchor d; frame_row := frame_row d;
     frame_content := frame_content d; frame_table := frame_table d;
     frame_cols := f (frame_cols d) |}.

(** The selectors [$('#' + id)] of the script go through jQuery's
    shortcut to [document.getElementById] when the id is made of word
    characters and hyphens; any other id is handed to the selector
    engine, which is outside the model. *)
Definition is_word_char (c : ascii) : bool :=
  let n := nat_of_ascii c in
  (Nat.leb 48 n && Nat.leb n 57) || (Nat.leb 65 n && Nat.leb n 90)
  || (Nat.leb 97 n && Nat.leb n 122) || Nat.eqb n 95 || Nat.eqb n 45.

Fixpoint all_word (s : string) : bool :=
  match s with
  | EmptyString => true
  | String c r => is_word_char c && all_word r
  end.

Definition simple_id (id : string) : bool :=
  negb (String.eqb id "") && all_word id.

Fixpoint first_with_id (id : string) (l : list (string * Ref)) : option Ref :=
  match l with
  | [] => None
  | (k, r) :: rest => if String.eqb k id then Some r else first_with_id id rest
  end.

End Dom.

Export Dom.

(** A text written with apostrophes in the place of double quotes. *)
Fixpoint quoted (s : string) : string :=
  match s with
  | EmptyString => EmptyString
  | String c r => String (if Ascii.eqb c "'" then JS.dquote else c) (quoted r)
  end.

(** ** The state of the page and of the extension *)

(** A message on the iopub channel, with the fields the script reads:
    [msg.header.msg_type], [msg.content.text], [msg.content.evalue] and
    [msg.content.traceback] ([None] is [undefined]). *)
Record Message := {
  msg_type : string;
  msg_text : option string;
  msg_evalue : option string;
  msg_traceback : option (list string)
}.

(** A wrapper [div] made by a loader ([$('<div id="..._widget"></div>')]),
    with the outputs that [display_widgets] has put into it.  A node stays
    in the store when a redraw removes it from the page: the reply handler
    of its request still holds it. *)
Record Node := {
  node_id : string;
  node_outputs : list Message
}.

(** The [iopub.output] callback given to [kernel.execute]. *)
Inductive Handler :=
| code_exec                      (* code_exec_callback *)
| widget_output (node : nat)     (* display_widgets(msg, wrapper) *)
| no_handler.

Record Request := {
  req_code : string;
  req_output : Handler
}.

(** The badge [.iosb] of the toolbar button. *)
Record Badge := {
  badge_hidden : bool;
  badge_content : option nat
}.

(** [Jupyter.notebook.metadata.datacleaner]: undefined, an object of the
    notebook file, or (once [read_config] has run its callback) the very
    object [cfg]. *)
Inductive MetaSlot :=
| MetaUndefined
| MetaObject (window_display : option bool)
| MetaCfg.

(** The callbacks the script hands to [require], to a promise, to an
    animation or to a timer: they run later, one at a time. *)
Inductive Task :=
| ConfigLoaded      (* config.loaded.then(...) of read_config *)
| BadgeLoaded       (* require([.../iosbadge], ...) of datacleaner_button *)
| RefreshLoaded     (* require([.../jquery.tablesorter.min], ...) of varRefresh *)
| ToggleDone        (* the end of $("#datacleaner-wrapper").toggle({...}) *)
| SorterLoaded.     (* require([...], ...) at the end of code_exec_callback *)

(** A state describes the page once [data_cleaner] has created
    [#datacleaner-wrapper], which [load_jupyter_extension] does as soon as
    a kernel is attached; [Jupyter.notebook.kernel] is then an object. *)
Record State := {
  wrapper_visible : bool;           (* $('#datacleaner-wrapper').is(':visible') *)
  table : list Frame;               (* the rows inside #datacleaner *)
  nodes : list Node;                (* the wrapper nodes made so far *)
  badge : option Badge;             (* None until the badge plugin has run *)
  n_dataframes : option nat;        (* the variable n_dataframes; None is undefined *)
  sent : list Request;              (* calls of kernel.execute, oldest first *)
  console : list string;            (* console.warn, oldest first *)
  metadata : MetaSlot;
  cfg_window_display : bool;        (* cfg.window_display *)
  sys_window_display : option bool; (* config.data.datacleaner.window_display *)
  dirty : bool;                     (* Jupyter.notebook.set_dirty() *)
  config_loaded : bool;             (* st.config_loaded *)
  refresh_handlers : nat;           (* handlers of 'execute.CodeCell' and 'varRefresh' *)
  tasks : list Task                 (* deferred callbacks, oldest first *)
}.

Definition set_wrapper_visible (x : bool) (s : State) : State :=
  {| wrapper_visible := x; table := table s; nodes := nodes s; badge := badge s;
     n_dataframes := n_dataframes s; sent := sent s; console := console s;
     metadata := metadata s; cfg_window_display := cfg_window_display s;
     sys_window_display := sys_window_display s; dirty := dirty s;
     config_loaded := config_loaded s; refresh_handlers := refresh_handlers s;
     tasks := tasks s |}.

Definition set_table (x : list Frame) (s : State) : State :=
  {| wrapper_visible := wrapper_visible s; table := x; nodes := nodes s;
     badge := badge s; n_dataframes := n_dataframes s; sent := sent s;
     console := console s; metadata := metadata s;
     cfg_window_display := cfg_window_display s;
     sys_window_display := sys_window_display s; dirty := dirty s;
     config_loaded := config_loaded s; refresh_handlers := refresh_handlers s;
     tasks := tasks s |}.

Definition set_nodes (x : list Node) (s : State) : State :=
  {| wrapper_visible := wrapper_visible s; table := table s; nodes := x;
     badge := badge s; n_dataframes := n_dataframes s; sent := sent s;
     console := console s; metadata := metadata s;
     cfg_window_display := cfg_window_display s;
     sys_window_display := sys_window_display s; dirty := dirty s;
     config_loaded := config_loaded s; refresh_handlers := refresh_handlers s;
     tasks := tasks s |}.

Definition set_badge (x : option Badge) (s : State) : State :=
  {| wrapper_visible := wrapper_visible s; table := table s; nodes := nodes s;
     badge := x; n_dataframes := n_dataframes s; sent := sent s;
     console := console s; metadata := metadata s;
     cfg_window_display := cfg_window_display s;
     sys_window_display := sys_window_display s; dirty := dirty s;
     config_loaded := config_loaded s; refresh_handlers := refresh_handlers s;
     tasks := tasks s |}.

Definition set_n_dataframes (x : option nat) (s : State) : State :=
  {| wrapper_visible := wrapper_visible s; table := table s; nodes := nodes s;
     badge := badge s; n_dataframes := x; sent := sent s;
     console := console s; metadata := metadata s;
     cfg_window_display := cfg_window_display s;
     sys_window_display := sys_window_display s; dirty := dirty s;
     config_loaded := config_loaded s; refresh_handlers := refresh_handlers s;
     tasks := tasks s |}.

Definition set_sent (x : list Request) (s : State) : State :=
  {| wrapper_visible := wrapper_visible s; table := table s; nodes := nodes s;
     badge := badge s; n_dataframes := n_dataframes s; sent := x;
     console := console s; metadata := metadata s;
     cfg_window_display := cfg_window_display s;
     sys_window_display := sys_window_display s; dirty := dirty s;
     config_loaded := config_loaded s; refresh_handlers := refresh_handlers s;
     tasks := tasks s |}.

Definition set_console (x : list string) (s : State) : State :=
  {| wrapper_visible := wrapper_visible s; table := table s; nodes := nodes s;
     badge := badge s; n_dataframes := n_dataframes s; sent := sent s;
     console := x; metadata := metadata s;
     cfg_window_display := cfg_window_display s;
     sys_window_display := sys_window_display s; dirty := dirty s;
     config_loaded := config_loaded s; refresh_handlers := refresh_handlers s;
     tasks := tasks s |}.

Definition set_metadata (x : MetaSlot) (w : bool) (s : State) : State :=
  {| wrapper_visible := wrapper_visible s; table := table s; nodes := nodes s;
     badge := badge s; n_dataframes := n_dataframes s; sent := sent s;
     console := console s; metadata := x; cfg_window_display := w;
     sys_window_display := sys_window_display s; dirty := dirty s;
     config_loaded := config_loaded s; refresh_handlers := refresh_handlers s;
     tasks := tasks s |}.

Definition set_dirty (s : State) : State :=
  {| wrapper_visible := wrapper_visible s; table := table s; nodes := nodes s;
     badge := badge s; n_dataframes := n_dataframes s; sent := sent s;
     console := console s; metadata := metadata s;
     cfg_window_display := cfg_window_display s;
     sys_window_display := sys_window_display s; dirty := true;
     config_loaded := config_loaded s; refresh_handlers := refresh_handlers s;
     tasks := tasks s |}.

Definition set_config_loaded (s : State) : State :=
  {| wrapper_visible := wrapper_visible s; table := table s; nodes := nodes s;
     badge := badge s; n_dataframes := n_dataframes s; sent := sent s;
     console := console s; metadata := metadata s;
     cfg_window_display := cfg_window_display s;
     sys_window_display := sys_window_display s; dirty := dirty s;
     config_loaded := true; refresh_handlers := refresh_handlers s;
     tasks := tasks s |}.

Definition set_refresh_handlers (x : nat) (s : State) : State :=
  {| wrapper_visible := wrapper_visible s; table := table s; nodes := nodes s;
     badge := badge s; n_dataframes := n_dataframes s; sent := sent s;
     console := console s; metadata := metadata s;
     cfg_window_display := cfg_window_display s;
     sys_window_display := sys_window_display s; dirty := dirty s;
     config_loaded := config_loaded s; refresh_handlers := x;
     tasks := tasks s |}.

Definition set_tasks (x : list Task) (s : State) : State :=
  {| wrapper_visible := wrapper_visible s; table := table s; nodes := nodes s;
     badge := badge s; n_dataframes := n_dataframes s; sent := sent s;
     console := console s; metadata := metadata s;
     cfg_window_display := cfg_window_display s;
     sys_window_display := sys_window_display s; dirty := dirty s;
     config_loaded := config_loaded s; refresh_handlers := refresh_handlers s;
     tasks := x |}.

(** *** Running a handler: a new state, an exception thrown out of the
    handler (with the state as the handler left it), or a step outside the
    model. *)

Inductive Res (A : Type) :=
| Done (a : A) (s : State)
| Thrown (e : JS.error) (s : State)
| Beyond.
Arguments Done {A} a s.
Arguments Thrown {A} e s.
Arguments Beyond {A}.

Definition M (A : Type) : Type := State -> Res A.

#[global] Instance M_ret : MRet M := fun A a s => Done a s.
#[global] Instance M_bind : MBind M := fun A B k m s =>
  match m s with
  | Done a s' => k a s'
  | Thrown e s' => Thrown e s'
  | Beyond => Beyond
  end.

Definition get : M State := fun s => Done s s.
Definition modify (f : State -> State) : M unit := fun s => Done tt (f s).
Definition throw {A} (e : JS.error) : M A := fun s => Thrown e s.
Definition beyond {A} : M A := fun _ => Beyond.
Definition skip : M unit := mret tt.

Definition lift {A} (r : JS.result A) : M A := fun s =>
  match r with
  | JS.Val a => Done a s
  | JS.Raise e => Thrown e s
  | JS.OutOfModel => Beyond
  end.

Fixpoint for_each {A} (f : A -> M unit) (l : list A) : M unit :=
  match l with
  | [] => skip
  | x :: rest => f x ;; for_each f rest
  end.

Fixpoint map_each {A B} (f : A -> M B) (l : list A) : M (list B) :=
  match l with
  | [] => mret []
  | x :: rest => y ← f x; ys ← map_each f rest; mret (y :: ys)
  end.

(** ** Elements by id *)

(** The ids of the page in document order.  For a dataframe: the cell
    [td#dfId_row] and the wrapper it may hold, the cell [td#table_dfId],
    the table [table#dfId], and for each column the anchor [a#colId] and
    the cell [td#colId_row] with the wrapper it may hold.  The rest of the
    notebook page is taken to hold no element with an id of these forms:
    [$('#' + id)] finds the first element of the panel with that id, as
    [document.getElementById] does. *)
Definition node_of (ns : list Node) (c : content) : option Node :=
  match c with
  | Loading => None
  | Attached n => ns !! n
  end.

Definition content_ids (ns : list Node) (r : Ref) (c : content)
  : list (string * Ref) :=
  match node_of ns c with
  | Some nd => [(node_id nd, r)]
  | None => []
  end.

Definition column_ids (ns : list Node) (i j : nat) (c : Column)
  : list (string * Ref) :=
  (col_id c, AtColumnAnchor i j)
    :: (col_id c +:+ "_row", AtColumnRow i j)
    :: content_ids ns (AtColumnWidget i j) (col_content c).

Definition frame_ids (ns : list Node) (i : nat) (d : Frame)
  : list (string * Ref) :=
  (frame_id d +:+ "_row", AtFrameRow i)
    :: content_ids ns (AtFrameWidget i) (frame_content d)
    ++ ("table_" +:+ frame_id d, AtFrameTable i)
    :: (frame_id d, AtInnerTable i)
    :: mjoin (imap (column_ids ns i) (frame_cols d)).

Definition document_ids (s : State) : list (string * Ref) :=
  mjoin (imap (frame_ids (nodes s)) (table s)).

Definition getElementById (s : State) (id : string) : option Ref :=
  first_with_id id (document_ids s).

Definition column_at (s : State) (i j : nat) : option Column :=
  d ← table s !! i; frame_cols d !! j.

Definition alter_frame (f : Frame -> Frame) (i : nat) (s : State) : State :=
  set_table (alter f i (table s)) s.

Definition alter_column (f : Column -> Column) (i j : nat) (s : State) : State :=
  alter_frame (set_frame_cols (alter f j)) i s.

(** The script looks up three kinds of ids.  When an id is not plain, or
    resolves to an element of another kind than the one the script wrote
    under that id, the outcome depends on parts of the page that are not
    modelled: the functions below then have no answer ([None]). *)

(** [$('#' + x + '_row').attr('class')]: the class of a placeholder cell,
    [undefined] when there is no such element. *)
Definition row_class (s : State) (id : string) : option (option classes) :=
  if simple_id id then
    match getElementById s id with
    | None => Some None
    | Some (AtFrameRow i) => Some (frame_row <$> table s !! i)
    | Some (AtColumnRow i j) => Some (col_row <$> column_at s i j)
    | Some _ => None
    end
  else None.

(** [$('#table_' + x).attr('class')]: the cell around a table of columns. *)
Definition table_class (s : State) (id : string) : option (option classes) :=
  if simple_id id then
    match getElementById s id with
    | None => Some None
    | Some (AtFrameTable i) => Some (frame_table <$> table s !! i)
    | Some _ => None
    end
  else None.

(** [$('#' + x + '_widget').find('.output').length === 0]: a wrapper holds
    one [.output] element for each message that [display_widgets] gave to
    an output area on it. *)
Definition no_output (o : option Node) : bool :=
  match o with
  | Some nd => bool_decide (node_outputs nd = [])
  | None => true
  end.

Definition widget_empty (s : State) (id : string) : option bool :=
  if simple_id id then
    match getElementById s id with
    | None => Some true
    | Some (AtFrameWidget i) =>
        Some (no_output (d ← table s !! i; node_of (nodes s) (frame_content d)))
    | Some (AtColumnWidget i j) =>
        Some (no_output (c ← column_at s i j; node_of (nodes s) (col_content c)))
    | Some _ => None
    end
  else None.

(** [$('#' + x + '_row').html(wrapper)]: the new state; nothing changes
    when no element has the id. *)
Definition with_html (s : State) (id : string) (c : content) : option State :=
  if simple_id id then
    match getElementById s id with
    | None => Some s
    | Some (AtFrameRow i) => Some (alter_frame (set_frame_content c) i s)
    | Some (AtColumnRow i j) => Some (alter_column (set_col_content c) i j s)
    | Some _ => None
    end
  else None.

Definition in_model {A} (f : State -> option A) : M A := fun s =>
  match f s with
  | Some a => Done a s
  | None => Beyond
  end.

Definition placeholder_class (id : string) : M (option classes) :=
  in_model (fun s => row_class s id).

Definition table_cell_class (id : string) : M (option classes) :=
  in_model (fun s => table_class s id).

Definition widget_is_empty (id : string) : M bool :=
  in_model (fun s => widget_empty s id).

Definition placeholder_html (id : string) (c : content) : M unit := fun s =>
  match with_html s id c with
  | Some s' => Done tt s'
  | None => Beyond
  end.

(** ** The functions of [main.js] *)

Definition log_prefix : string := "[dataclean] ".

(** [cfg.python.varRefreshCmd], after the [replace] that removes twelve
    leading blanks from each line. *)
Definition varRefreshCmd : string :=
"try:
    print(_datacleaner.dataframe_metadata())
except:
    print([])".

(** The snippet of [datacleaner_init] that creates the remote object. *)
Definition createCmd : string :=
"try:
    _datacleaner
except NameError:
    from dataclean.manager import DataCleaner as _DataCleaner
    _datacleaner = _DataCleaner()".

(** [Jupyter.notebook.kernel.execute(code, {iopub: {output: h}}, ...)]. *)
Definition execute (code : string) (h : Handler) : M unit :=
  modify (fun s => set_sent (sent s ++ [{| req_code := code; req_output := h |}]) s).

Definition console_warn (line : string) : M unit :=
  modify (fun s => set_console (console s ++ [line]) s).

Definition defer (t : Task) : M unit :=
  modify (fun s => set_tasks (tasks s ++ [t]) s).

(** [log_prefix + x] for a field that may be undefined; a traceback is an
    array of lines, joined with commas by the conversion to a string. *)
Definition shown (x : option string) : string :=
  match x with Some t => t | None => "undefined" end.

Definition joined (x : option (list string)) : option string :=
  String.concat "," <$> x.

Definition warn_error (msg : Message) : M unit :=
  console_warn (log_prefix +:+ shown (msg_evalue msg));;
  console_warn (log_prefix +:+ shown (joined (msg_traceback msg))).

(** *** [html_table] *)

(** [v.k] put into an attribute: the string is needed.  [v.k] put into a
    cell: the cell shows the value, converted to a string by [+]. *)
Definition read_id (v : JS.value) (k : string) : M string :=
  lift (JS.prop v k ≫= JS.to_string).

Definition read (v : JS.value) (k : string) : M JS.value :=
  lift (JS.prop v k).

(** The class that a cell had before the redraw, or the default. *)
Definition remembered (found : option classes) (default : classes) : classes :=
  match found with
  | None => default
  | Some c => c
  end.

(** The body of the inner loop: one column [col = dfList[i].dfCols[j]]. *)
Definition html_column (dfId : string) (col : JS.value) : M Column :=
  colId ← read_id col "colId";
  colname ← read col "colname";
  description ← read col "description";
  dtype ← read description "dtype";
  null_percentage ← read description "null_percentage";
  distinct ← read description "distinct";
  (* remember if colwidget was hidden or shown *)
  cls ← placeholder_class (colId +:+ "_row");
  mret {| col_frame := dfId; col_id := colId; col_name := colname;
          col_dtype := dtype; col_nulls := null_percentage;
          col_distinct := distinct;
          col_anchor := ["toggleColumn"; "arrow-right"];
          col_row := remembered cls ["hidden"];
          col_content := Loading |}.

(** The body of the outer loop: one dataframe [dfList[i]]. *)
Definition html_frame (df : JS.value) : M Frame :=
  dfId ← read_id df "dfId";
  dfName ← read df "dfName";
  dfShape ← read df "dfShape";
  dfColnames ← read df "dfColnames";
  (* remember if pipeline widget was hidden or shown *)
  row ← placeholder_class (dfId +:+ "_row");
  (* remember if sub-table was hidden or shown *)
  sub ← table_cell_class ("table_" +:+ dfId);
  dfCols ← read df "dfCols";
  '(_, cols) ← lift (JS.array_like dfCols);
  columns ← map_each (html_column dfId) cols;
  mret {| frame_id := dfId; frame_name := dfName; frame_shape := dfShape;
          frame_colnames := dfColnames;
          frame_anchor := ["toggleDataframe"; "arrow-right"];
          frame_row := remembered row ["pipeline_widget"; "hidden"];
          frame_content := Loading;
          frame_table := remembered sub ["hidden"];
          frame_cols := columns |}.

(** [html_table(jsonDataframes)]: the rows of the new table.  The result
    is the tree that the markup denotes when the strings put into it hold
    no markup of their own. *)
Definition html_table (jsonDataframes : string) : M (list Frame) :=
  dfList ← lift (JS.JSON_parse jsonDataframes);
  '(n, items) ← lift (JS.array_like dfList);
  modify (set_n_dataframes n);;
  map_each html_frame items.

(** The string that [html_table] returns for these rows: the pieces of
    markup of the source, in its order (the literals are written here
    with apostrophes for the double quotes of the source).  A class read
    with [attr('class')] is the text of its tokens. *)
Definition class_text (cls : classes) : string := String.concat " " cls.

Definition column_markup (c : Column) : JS.result string :=
  colname ← JS.to_string (col_name c);
  dtype ← JS.to_string (col_dtype c);
  null_percentage ← JS.to_string (col_nulls c);
  distinct ← JS.to_string (col_distinct c);
  JS.Val (quoted "<tr class='tablesorter-hasChildRow'>"
    +:+ quoted "<td class='childColumn'><a href='#' class='toggleColumn arrow-right' "
    +:+ quoted "data-frame-id='" +:+ col_frame c +:+ quoted "' "
    +:+ quoted "id='" +:+ col_id c +:+ quoted "'>"
    +:+ colname +:+ "</a></td><td>"
    +:+ dtype +:+ "</td><td>"
    +:+ null_percentage +:+ "</td><td>"
    +:+ distinct +:+ "</td><td>"
    +:+ quoted "<tr class='tablesorter-childRow'><td colspan='4'"
    +:+ quoted "id='" +:+ col_id c +:+ quoted "_row' class='"
    +:+ class_text (col_row c)
    +:+ quoted "'>Loading widget...</td></tr>").

Definition frame_markup (d : Frame) : JS.result string :=
  dfName ← JS.to_string (frame_name d);
  dfShape ← JS.to_string (frame_shape d);
  dfColnames ← JS.to_string (frame_colnames d);
  columns ← mapM column_markup (frame_cols d);
  JS.Val (quoted "<tr class='tablesorter-hasChildRow'>"
    +:+ quoted "<td><a href='#' class='toggleDataframe arrow-right' "
    +:+ quoted "data-frame-id='" +:+ frame_id d +:+ quoted "'>"
    +:+ dfName +:+ "</a></td><td>"
    +:+ dfShape +:+ "</td><td>"
    +:+ dfColnames +:+ "</td></tr>"
    +:+ "<tr class=tablesorter-childRow>"
    +:+ quoted "<td colspan='3' class='"
    +:+ class_text (frame_row d)
    +:+ quoted "' id='" +:+ frame_id d +:+ quoted "_row'>"
    +:+ "Loading widget...</td></tr>"
    +:+ quoted "<tr class='tablesorter-childRow'>"
    +:+ quoted "<td colspan='3' class='"
    +:+ class_text (frame_table d)
    +:+ quoted "' id='table_" +:+ frame_id d +:+ quoted "'>"
    +:+ quoted "<table class='tablesorter"
    +:+ quoted "' width='100%' id='" +:+ frame_id d +:+ quoted "'>"
    +:+ quoted "<thead class='sorter-false'><tr>"
    +:+ "<th>Column</th>"
    +:+ "<th>Pandas dtype</th>"
    +:+ "<th>Nulls</th>"
    +:+ "<th># Distinct</th>"
    +:+ "</tr></thead>"
    +:+ "<tbody>"
    +:+ String.concat "" columns
    +:+ "</tbody>"
    +:+ "</table>"
    +:+ "</td></tr>").

Definition html_markup (rows : list Frame) : JS.result string :=
  frames ← mapM frame_markup rows;
  JS.Val (quoted "<div class='inspector'>"
    +:+ quoted "<table class='"
    +:+ "tablesorter tablesorter-default table "
    +:+ quoted "fixed table-condensed table-nonfluid '>"
    +:+ "<col /><col  /><col /><thead><tr>"
    +:+ "<th >Name</th><th >Shape</th><th >Columns</th>"
    +:+ "</tr></thead>"
    +:+ String.concat "" frames
    +:+ "</table></div>").

(** *** [display_widgets] *)

Definition add_output (msg : Message) (nd : Node) : Node :=
  {| node_id := node_id nd; node_outputs := node_outputs nd ++ [msg] |}.

Definition display_widgets (msg : Message) (output_wrapper : nat) : M unit :=
  (if String.eqb (msg_type msg) "display_data"
   then modify (fun s => set_nodes (alter (add_output msg) output_wrapper (nodes s)) s)
   else skip);;
  (if String.eqb (msg_type msg) "error" then warn_error msg else skip).

(** *** The loaders.  The argument [selector] is an anchor; the script
    reads its attributes [data-frame-id] and [id]. *)

Definition new_node (id : string) : M nat := fun s =>
  Done (length (nodes s))
       (set_nodes (nodes s ++ [{| node_id := id; node_outputs := [] |}]) s).

Definition display_column_widget (dataframe_id column_id : string) : M unit :=
  s ← get;
  if wrapper_visible s then
    empty ← widget_is_empty (column_id +:+ "_widget");
    if empty : bool then
      col_output_wrapper ← new_node (column_id +:+ "_widget");
      placeholder_html (column_id +:+ "_row") (Attached col_output_wrapper);;
      execute ("_datacleaner.dataframe_managers[" +:+ dataframe_id
                 +:+ "].column_widget(" +:+ column_id +:+ ")")
              (widget_output col_output_wrapper)
    else skip
  else skip.

Definition display_pipeline_widget (dataframe_id : string) : M unit :=
  s ← get;
  if wrapper_visible s then
    empty ← widget_is_empty (dataframe_id +:+ "_widget");
    if empty : bool then
      pipeline_output_wrapper ← new_node (dataframe_id +:+ "_widget");
      placeholder_html (dataframe_id +:+ "_row") (Attached pipeline_output_wrapper);;
      execute ("_datacleaner.dataframe_managers[" +:+ dataframe_id
                 +:+ "].dataframe_widget")
              (widget_output pipeline_output_wrapper)
    else skip
  else skip.

(** *** The poller and the initialisation *)

(** [varRefresh]: the call of [kernel.execute] is inside the callback of
    [require]. *)
Definition varRefresh : M unit := defer RefreshLoaded.

(** [data_cleaner(cfg, st)]: the wrapper exists, so nothing is created;
    the resize of the window changes no part of the state. *)
Definition data_cleaner : M unit := varRefresh.

(** [datacleaner_button]: the button is in the toolbar; the badge is made
    and hidden in the callback of [require]. *)
Definition datacleaner_button : M unit := defer BadgeLoaded.

(** [read_config(cfg, callback)] registers the callback on the promise
    [config.loaded]. *)
Definition read_config : M unit := defer ConfigLoaded.

Definition datacleaner_init : M unit :=
  read_config;;
  data_cleaner;;
  (* CREATE DATACLEANER PYTHON OBJECT *)
  execute createCmd no_handler;;
  modify (fun s => set_refresh_handlers (S (refresh_handlers s)) s).

Definition toggle_datacleaner : M unit := defer ToggleDone.

(** *** [code_exec_callback] *)

(** Modelled from the spec: the badge plugin [iosbadge] is not under
    [src/]; the button carries "a numeric badge showing current dataframe
    count".  [$("#datacleaner_button").iosbadge({content: n})] sets the
    number shown; before the plugin is loaded, [iosbadge] is not a
    function of jQuery objects and the call raises a [TypeError]. *)
Definition iosbadge_content (n : nat) : M unit :=
  s ← get;
  match badge s with
  | None => throw JS.TypeError
  | Some b =>
      modify (set_badge (Some {| badge_hidden := badge_hidden b;
                                 badge_content := Some n |}))
  end.

(** [$("#datacleaner_button").find('.iosb')] with [addClass('hidden')] or
    [removeClass('hidden')]: nothing when there is no badge yet. *)
Definition badge_set_hidden (h : bool) : M unit :=
  modify (fun s =>
    set_badge ((fun b => {| badge_hidden := h; badge_content := badge_content b |})
                 <$> badge s) s).

Definition update_badge : M unit :=
  s ← get;
  match n_dataframes s with
  | Some (S n) => iosbadge_content (S n);; badge_set_hidden false
  | _ => badge_set_hidden true
  end.

Definition toggle_arrow (cls : classes) : classes :=
  toggleClass "arrow-down" (toggleClass "arrow-right" cls).

(** The handler bound to the anchors [.toggleColumn]: the cell of the
    child row toggles [hidden], the anchor toggles its arrow, and the
    loader is called, on opening and on closing alike. *)
Definition click_toggleColumn (i j : nat) : M unit :=
  s ← get;
  match column_at s i j with
  | None => skip
  | Some c =>
      modify (alter_column (set_col_row (toggleClass "hidden")) i j);;
      modify (alter_column (set_col_anchor toggle_arrow) i j);;
      display_column_widget (col_frame c) (col_id c)
  end.

(** The handler bound to the anchors [.toggleDataframe]: the cells of the
    two child rows toggle [hidden]. *)
Definition click_toggleDataframe (i : nat) : M unit :=
  s ← get;
  match table s !! i with
  | None => skip
  | Some d =>
      modify (alter_frame (set_frame_rows (toggleClass "hidden")) i);;
      modify (alter_frame (set_frame_anchor toggle_arrow) i);;
      display_pipeline_widget (frame_id d)
  end.

(** [$('.toggleColumn')] and [$('.toggleDataframe')] are the anchors, as
    long as no cell carries one of these classes (a class that a cell
    could only have taken from an earlier page). *)
Definition no_anchor_class (cls : classes) : bool :=
  negb (hasClass "toggleColumn" cls) && negb (hasClass "toggleDataframe" cls).

Definition anchors_only (t : list Frame) : bool :=
  forallb (fun d =>
    no_anchor_class (frame_row d) && no_anchor_class (frame_table d)
    && forallb (fun c => no_anchor_class (col_row c)) (frame_cols d)) t.

Definition column_positions (t : list Frame) : list (nat * nat) :=
  mjoin (imap (fun i d => imap (fun j _ => (i, j)) (frame_cols d)) t).

(** redisplay already open widgets: the columns ... *)
Definition redisplay_column (p : nat * nat) : M unit :=
  s ← get;
  match column_at s p.1 p.2 with
  | None => skip
  | Some c =>
      if negb (hasClass "hidden" (col_row c)) then
        modify (alter_column (set_col_anchor toggle_arrow) p.1 p.2);;
        display_column_widget (col_frame c) (col_id c)
      else skip
  end.

(** ... and the dataframes: [find('.pipeline_widget').hasClass('hidden')]
    on the row that follows the anchor's row. *)
Definition redisplay_frame (i : nat) : M unit :=
  s ← get;
  match table s !! i with
  | None => skip
  | Some d =>
      if negb (hasClass "pipeline_widget" (frame_row d)
               && hasClass "hidden" (frame_row d)) then
        modify (alter_frame (set_frame_anchor toggle_arrow) i);;
        display_pipeline_widget (frame_id d)
      else skip
  end.

Definition redisplay : M unit :=
  s ← get;
  if anchors_only (table s) then
    for_each redisplay_column (column_positions (table s));;
    for_each redisplay_frame (seq 0 (length (table s)))
  else beyond.

Definition code_exec_callback (msg : Message) : M unit :=
  (if String.eqb (msg_type msg) "stream" then
     match msg_text msg with
     | None => datacleaner_init
     | Some jsonDataframes =>
         (* redraw table *)
         rows ← html_table jsonDataframes;
         modify (set_table rows);;
         update_badge;;
         (* add click events; redisplay already open widgets *)
         redisplay
     end;;
     defer SorterLoaded
   else skip);;
  (if String.eqb (msg_type msg) "error" then warn_error msg else skip).

(** ** The events of the page *)

(** The callback of [config.loaded.then] in [read_config]: the system
    configuration is merged into [cfg], [cfg] takes [window_display] from
    the notebook metadata when it is set and true there, the metadata are
    merged into [cfg], and [cfg] becomes the metadata object. *)
Definition config_loaded_callback : M unit :=
  s ← get;
  let w1 := match sys_window_display s with
            | Some b => b
            | None => cfg_window_display s
            end in
  let w2 := match metadata s with
            | MetaObject (Some true) => true
            | _ => w1
            end in
  let w3 := match metadata s with
            | MetaObject (Some b) => b
            | _ => w2
            end in
  modify (set_metadata MetaCfg w3);;
  datacleaner_button;;
  modify set_config_loaded.

(** The callback of [require] in [datacleaner_button]: the badge is made
    when the button has none, and hidden. *)
Definition badge_loaded_callback : M unit :=
  modify (fun s =>
    set_badge (Some {| badge_hidden := true;
                       badge_content := b ← badge s; badge_content b |}) s).

(** The callback of [require] in [varRefresh]. *)
Definition refresh_loaded_callback : M unit :=
  execute varRefreshCmd code_exec.

(** The end of the animation of [toggle_datacleaner]: the wrapper has
    changed its display; the [complete] callback writes the flag into the
    metadata, marks the notebook dirty and calls [data_cleaner]. *)
Definition toggle_complete : M unit :=
  modify (fun s => set_wrapper_visible (negb (wrapper_visible s)) s);;
  s ← get;
  match metadata s with
  | MetaUndefined => throw JS.TypeError
  | MetaObject _ =>
      modify (set_metadata (MetaObject (Some (wrapper_visible s)))
                           (cfg_window_display s))
  | MetaCfg => modify (set_metadata MetaCfg (wrapper_visible s))
  end;;
  modify set_dirty;;
  (* recompute: *)
  data_cleaner.

Definition run (t : Task) : M unit :=
  match t with
  | ConfigLoaded => config_loaded_callback
  | BadgeLoaded => badge_loaded_callback
  | RefreshLoaded => refresh_loaded_callback
  | ToggleDone => toggle_complete
  | SorterLoaded => skip   (* $('#datacleaner table').tablesorter() *)
  end.

(** The browser runs the deferred callback at place [i]. *)
Definition run_task (i : nat) : M unit :=
  s ← get;
  match tasks s !! i with
  | None => skip
  | Some t => modify (fun s => set_tasks (delete i (tasks s)) s);; run t
  end.

(** The kernel sends [msg] in answer to the [k]-th call of [execute]. *)
Definition deliver (k : nat) (msg : Message) : M unit :=
  s ← get;
  match req_output <$> sent s !! k with
  | Some code_exec => code_exec_callback msg
  | Some (widget_output n) => display_widgets msg n
  | _ => skip
  end.

(** A code cell has run: every registered handler calls [varRefresh]. *)
Definition cell_executed : M unit :=
  s ← get; for_each (fun _ => varRefresh) (seq 0 (refresh_handlers s)).

(** The value of [window_display] in the notebook metadata. *)
Definition metadata_window_display (s : State) : option bool :=
  match metadata s with
  | MetaUndefined => None
  | MetaObject w => w
  | MetaCfg => Some (cfg_window_display s)
  end.

(** The page as [load_jupyter_extension] leaves it with a kernel attached
    and a notebook without metadata of the extension: the wrapper is made
    and hidden, the creation snippet is sent, and three callbacks wait. *)
Definition loaded : State :=
  {| wrapper_visible := false; table := []; nodes := []; badge := None;
     n_dataframes := Some 0;
     sent := [{| req_code := createCmd; req_output := no_handler |}];
     console := []; metadata := MetaUndefined; cfg_window_display := false;
     sys_window_display := None; dirty := false; config_loaded := false;
     refresh_handlers := 1;
     tasks := [BadgeLoaded; ConfigLoaded; RefreshLoaded] |}.

(** ** The data model of the reply *)

(** The descriptors of section "Data model": a dataframe with its columns.
    The ids are the strings put into the attributes; the other fields are
    shown in cells and kept as the values of the reply. *)
Record ColumnDescriptor := {
  colId : string;
  colname : JS.value;
  dtype : JS.value;
  null_percentage : JS.value;
  distinct : JS.value
}.

Record DataframeDescriptor := {
  dfId : string;
  dfName : JS.value;
  dfShape : JS.value;
  dfColnames : JS.value;
  dfCols : list ColumnDescriptor
}.

Definition field (k : string) (props : list (string * JS.value)) : JS.value :=
  match JS.last_binding k props with
  | Some w => w
  | None => JS.VUndefined
  end.

(** An id is a string or an exact integer of the reply. *)
Definition as_id (v : JS.value) : option string :=
  match v with
  | JS.VStr t => Some t
  | JS.VNum z => Some (NilZero.string_of_int (Z.to_int z))
  | _ => None
  end.

Definition as_column (v : JS.value) : option ColumnDescriptor :=
  match v with
  | JS.VObj props =>
      id ← as_id (field "colId" props);
      match field "description" props with
      | JS.VObj d =>
          Some {| colId := id; colname := field "colname" props;
                  dtype := field "dtype" d;
                  null_percentage := field "null_percentage" d;
                  distinct := field "distinct" d |}
      | _ => None
      end
  | _ => None
  end.

Definition as_frame (v : JS.value) : option DataframeDescriptor :=
  match v with
  | JS.VObj props =>
      id ← as_id (field "dfId" props);
      match field "dfCols" props with
      | JS.VArr cs =>
          cols ← mapM as_column cs;
          Some {| dfId := id; dfName := field "dfName" props;
                  dfShape := field "dfShape" props;
                  dfColnames := field "dfColnames" props;
                  dfCols := cols |}
      | _ => None
      end
  | _ => None
  end.

(** The reply as a descriptor list: an array of dataframe objects. *)
Definition as_descriptors (v : JS.value) : option (list DataframeDescriptor) :=
  match v with
  | JS.VArr items => mapM as_frame items
  | _ => None
  end.

(** The text of a reply denotes the list [D]. *)
Definition denotes (text : string) (D : list DataframeDescriptor) : Prop :=
  exists v, JS.JSON_parse text = JS.Val v /\ as_descriptors v = Some D.

(** The rows that a redraw makes from a descriptor list on the page [s]:
    every cell takes the class of the cell that has its id on [s]. *)
Definition column_of (s : State) (frame : string) (c : ColumnDescriptor)
  : option Column :=
  cls ← row_class s (colId c +:+ "_row");
  Some {| col_frame := frame; col_id := colId c; col_name := colname c;
          col_dtype := dtype c; col_nulls := null_percentage c;
          col_distinct := distinct c;
          col_anchor := ["toggleColumn"; "arrow-right"];
          col_row := remembered cls ["hidden"];
          col_content := Loading |}.

Definition frame_of (s : State) (d : DataframeDescriptor) : option Frame :=
  row ← row_class s (dfId d +:+ "_row");
  sub ← table_class s ("table_" +:+ dfId d);
  cols ← mapM (column_of s (dfId d)) (dfCols d);
  Some {| frame_id := dfId d; frame_name := dfName d;
          frame_shape := dfShape d; frame_colnames := dfColnames d;
          frame_anchor := ["toggleDataframe"; "arrow-right"];
          frame_row := remembered row ["pipeline_widget"; "hidden"];
          frame_content := Loading;
          frame_table := remembered sub ["hidden"];
          frame_cols := cols |}.

Definition rows_of (s : State) (D : list DataframeDescriptor)
  : option (list Frame) :=
  mapM (frame_of s) D.

(** ** Pages with distinct ids *)

(** The ids that the rows of a table use or may use: for a dataframe the
    two cells, the wrapper of its pipeline widget and the inner table; for
    a column the anchor, the cell and the wrapper of its widget. *)
Definition reserved_column (i j : nat) (c : Column) : list (string * Ref) :=
  [(col_id c, AtColumnAnchor i j);
   (col_id c +:+ "_row", AtColumnRow i j);
   (col_id c +:+ "_widget", AtColumnWidget i j)].

Definition reserved_frame (i : nat) (d : Frame) : list (string * Ref) :=
  [(frame_id d +:+ "_row", AtFrameRow i);
   (frame_id d +:+ "_widget", AtFrameWidget i);
   ("table_" +:+ frame_id d, AtFrameTable i);
   (frame_id d, AtInnerTable i)]
  ++ mjoin (imap (reserved_column i) (frame_cols d)).

Definition reserved (t : list Frame) : list (string * Ref) :=
  mjoin (imap reserved_frame t).

(** A wrapper held by the cell of [base] has the id [base_widget]. *)
Definition named (ns : list Node) (base : string) (c : content) : bool :=
  match c with
  | Loading => true
  | Attached n =>
      match ns !! n with
      | Some nd => String.eqb (node_id nd) (base +:+ "_widget")
      | None => false
      end
  end.

(** A page is coherent when its ids are pairwise distinct and made of word
    characters, and every wrapper sits in the cell of its row: what the
    script builds from descriptors with distinct ids. *)
Definition coherent (s : State) : bool :=
  bool_decide (NoDup (reserved (table s)).*1)
  && forallb (fun d =>
       all_word (frame_id d)
       && named (nodes s) (frame_id d) (frame_content d)
       && forallb (fun c => all_word (col_id c)
                            && named (nodes s) (col_id c) (col_content c))
                  (frame_cols d)) (table s).




(** The state of a row, read as the script reads it. *)
Definition open (cls : option (option classes)) : bool :=
  match cls with
  | Some (Some c) => negb (hasClass "hidden" c)
  | _ => false
  end.


(** The detail row of the column [x] is shown on the page. *)
Definition column_open (s : State) (x : string) : bool :=
  open (row_class s (x +:+ "_row")).


(** ** Messages and pages used in examples *)

Definition stream_msg (t : option string) : Message :=
  {| msg_type := "stream"; msg_text := t; msg_evalue := None;
     msg_traceback := None |}.

Definition display_data_msg : Message :=
  {| msg_type := "display_data"; msg_text := None; msg_evalue := None;
     msg_traceback := None |}.


(** The reply of the scenario of the specification: one dataframe [df] of
    shape 3x2 with one column [a]. *)
Definition one_frame_text : string :=
  quoted "[{'dfId': '1', 'dfName': 'df', 'dfShape': '3x2', 'dfColnames': ['a'], 'dfCols': [{'colId': '1_0', 'colname': 'a', 'description': {'dtype': 'int64', 'null_percentage': '0%', 'distinct': 3}}]}]
".

Definition one_frame : list DataframeDescriptor :=
  [{| dfId := "1"; dfName := JS.VStr "df"; dfShape := JS.VStr "3x2";
      dfColnames := JS.VArr [JS.VStr "a"];
      dfCols := [{| colId := "1_0"; colname := JS.VStr "a";
                    dtype := JS.VStr "int64";
                    null_percentage := JS.VStr "0%";
                    distinct := JS.VNum 3 |}] |}].

(** The final state of a handler, whatever its outcome. *)
Definition after (m : M unit) (s : State) : State :=
  match m s with
  | Done _ s' => s'
  | Thrown _ s' => s'
  | Beyond => s
  end.

(** The browser runs the waiting callbacks, oldest first. *)
Fixpoint drain (fuel : nat) : M unit :=
  match fuel with
  | O => skip
  | S f =>
      s ← get;
      match tasks s with
      | [] => skip
      | _ :: _ => run_task 0;; drain f
      end
  end.

(** The page after the callbacks of the load have run ([ready]), after the
    first poll has been answered with [one_frame_text] ([listed]), and
    after the panel has been opened from the toolbar ([opened]). *)
Definition ready : State := after (drain 8) loaded.

Definition listed : State :=
  after (deliver 1 (stream_msg (Some one_frame_text));; drain 8) ready.

Definition opened : State := after (toggle_datacleaner;; drain 8) listed.

(** The metadata object after the [complete] callback of the toggle has
    written the flag [w] into it. *)
Definition flagged (w : bool) (s : State) : State :=
  match metadata s with
  | MetaCfg => set_metadata MetaCfg w s
  | _ => set_metadata (MetaObject (Some w)) (cfg_window_display s) s
  end.

(** ** What a loader does to a coherent page *)

Definition column_request (c : Column) (n : nat) : Request :=
  {| req_code := "_datacleaner.dataframe_managers[" +:+ col_frame c
                   +:+ "].column_widget(" +:+ col_id c +:+ ")";
     req_output := widget_output n |}.

Definition frame_request (d : Frame) (n : nat) : Request :=
  {| req_code := "_datacleaner.dataframe_managers[" +:+ frame_id d
                   +:+ "].dataframe_widget";
     req_output := widget_output n |}.

Definition fresh_node (base : string) : Node :=
  {| node_id := base +:+ "_widget"; node_outputs := [] |}.

(** A new wrapper is put into the cell of the column at [(i, j)] and its
    widget is asked from the kernel. *)
Definition load_column (i j : nat) (c : Column) (s : State) : State :=
  let n := length (nodes s) in
  set_sent (sent s ++ [column_request c n])
    (alter_column (set_col_content (Attached n)) i j
       (set_nodes (nodes s ++ [fresh_node (col_id c)]) s)).

(** The same for the dataframe at [i]. *)
Definition load_frame (i : nat) (d : Frame) (s : State) : State :=
  let n := length (nodes s) in
  set_sent (sent s ++ [frame_request d n])
    (alter_frame (set_frame_content (Attached n)) i
       (set_nodes (nodes s ++ [fresh_node (frame_id d)]) s)).

(** The widget of a cell is loaded: its wrapper holds an output. *)
Definition loaded_content (s : State) (c : content) : bool :=
  negb (no_output (node_of (nodes s) c)).

(** ** What the redisplay loops do to a coherent page *)

(** One turn of [$('.toggleColumn').each(...)]. *)
Definition reopen_column (s : State) (p : nat * nat) : State :=
  match column_at s p.1 p.2 with
  | Some c =>
      if negb (hasClass "hidden" (col_row c)) then
        let s1 := alter_column (set_col_anchor toggle_arrow) p.1 p.2 s in
        if wrapper_visible s && negb (loaded_content s (col_content c))
        then load_column p.1 p.2 (set_col_anchor toggle_arrow c) s1
        else s1
      else s
  | None => s
  end.








(** The same for the pipeline widget of the dataframe at [i]. *)
Definition frame_requested (k : nat) (s : State) (i : nat) : Prop :=
  exists d n m,
    table s !! i = Some d
    /\ frame_content d = Attached n
    /\ nodes s !! n = Some (fresh_node (frame_id d))
    /\ k <= m /\ sent s !! m = Some (frame_request d n).




(** ** A redraw *)


Definition badge_after (n : nat) (b : Badge) : Badge :=
  match n with
  | O => {| badge_hidden := true; badge_content := badge_content b |}
  | S _ => {| badge_hidden := false; badge_content := Some n |}
  end.


Definition sorter_deferred (s : State) : State :=
  set_tasks (tasks s ++ [SorterLoaded]) s.

(** The page [opened] after the user has opened the dataframe and its
    column and the kernel has answered the request for the column widget
    (the fifth request) with a [display_data] message. *)
Definition browsing : State :=
  after (click_toggleDataframe 0;; click_toggleColumn 0 0;;
         deliver 4 display_data_msg) opened.

(** ** Expanding and collapsing a row *)

(** "Expand, collapse, re-expand: one request, then none", for
    three clicks in a row on the anchor of the column at [(i, j)]. *)
Definition three_clicks_one_request (s : State) (i j : nat) : Prop :=
  forall s1 s2 s3,
    click_toggleColumn i j s = Done tt s1 ->
    click_toggleColumn i j s1 = Done tt s2 ->
    click_toggleColumn i j s2 = Done tt s3 ->
    length (sent s1) = S (length (sent s)) /\ sent s3 = sent s1.

(** The column at [(i, j)] is expanded by a click, the kernel answers the
    request of that click with [msg], and the column is collapsed and
    expanded again: one request in all. *)
Definition column_cycle (s : State) (i j : nat) (c : Column) (msg : Message)
  : Prop :=
  exists s1 s2 s3 s4,
    click_toggleColumn i j s = Done tt s1
    /\ sent s1 = sent s ++ [column_request c (length (nodes s))]
    /\ column_open s1 (col_id c) = true
    /\ deliver (length (sent s)) msg s1 = Done tt s2
    /\ click_toggleColumn i j s2 = Done tt s3
    /\ column_open s3 (col_id c) = false
    /\ click_toggleColumn i j s3 = Done tt s4
    /\ column_open s4 (col_id c) = true
    /\ sent s2 = sent s1 /\ sent s3 = sent s1 /\ sent s4 = sent s1.

(** The same for the dataframe at [i]. *)
Definition frame_cycle (s : State) (i : nat) (d : Frame) (msg : Message)
  : Prop :=
  exists s1 s2 s3 s4,
    click_toggleDataframe i s = Done tt s1
    /\ sent s1 = sent s ++ [frame_request d (length (nodes s))]
    /\ hasClass "hidden" <$> (frame_row <$> table s1 !! i) = Some false
    /\ deliver (length (sent s)) msg s1 = Done tt s2
    /\ click_toggleDataframe i s2 = Done tt s3
    /\ hasClass "hidden" <$> (frame_row <$> table s3 !! i) = Some true
    /\ click_toggleDataframe i s3 = Done tt s4
    /\ hasClass "hidden" <$> (frame_row <$> table s4 !! i) = Some false
    /\ sent s2 = sent s1 /\ sent s3 = sent s1 /\ sent s4 = sent s1.

(** The rows of [opened]: the dataframe and its column, collapsed. *)
Definition first_column : Column :=
  {| col_frame := "1"; col_id := "1_0"; col_name := JS.VStr "a";
     col_dtype := JS.VStr "int64"; col_nulls := JS.VStr "0%";
     col_distinct := JS.VNum 3;
     col_anchor := ["toggleColumn"; "arrow-right"];
     col_row := ["hidden"]; col_content := Loading |}.

Definition first_frame : Frame :=
  {| frame_id := "1"; frame_name := JS.VStr "df"; frame_shape := JS.VStr "3x2";
     frame_colnames := JS.VArr [JS.VStr "a"];
     frame_anchor := ["toggleDataframe"; "arrow-right"];
     frame_row := ["pipeline_widget"; "hidden"]; frame_content := Loading;
     frame_table := ["hidden"]; frame_cols := [first_column] |}.

Definition create_request : Request :=
  {| req_code := createCmd; req_output := no_handler |}.

Definition poll_request : Request :=
  {| req_code := varRefreshCmd; req_output := code_exec |}.

(** ** The entry points of the script *)

(** [toggledatacleaner], the callback of the toolbar button. *)
Definition toggledatacleaner : M unit := toggle_datacleaner.

(** The click handler of the reload button [.reload-btn] of the header:
    [varRefresh(); return false]. *)
Definition click_reload : M unit := varRefresh.

(** The handler of [kernel_ready.Kernel] that [load_jupyter_extension]
    registers. *)
Definition kernel_ready : M unit := datacleaner_init.

(** What the browser can ask of the script: the toolbar button, a click on
    the anchor of a column or of a dataframe, the reload button, the
    execution of a code cell, a kernel that has become ready, a deferred
    callback whose time has come, a message of the kernel in answer to a
    request.  The other handlers of the header (moving, resizing and
    folding the window) act on the geometry of the window and on its
    position in the metadata, which a [State] does not hold.  A click is
    taken to be possible on every page: the click handlers are bound at
    the end of each redraw. *)
Inductive Event :=
| ToolbarButton
| ClickColumn (i j : nat)
| ClickDataframe (i : nat)
| ReloadButton
| CellExecuted
| KernelReady
| Callback (i : nat)
| Reply (k : nat) (msg : Message).

Definition handle (e : Event) : M unit :=
  match e with
  | ToolbarButton => toggledatacleaner
  | ClickColumn i j => click_toggleColumn i j
  | ClickDataframe i => click_toggleDataframe i
  | ReloadButton => click_reload
  | CellExecuted => cell_executed
  | KernelReady => kernel_ready
  | Callback i => run_task i
  | Reply k msg => deliver k msg
  end.

(** A handler ends by returning or by throwing; the page is then as the
    handler left it, and the browser goes on with the next event. *)
Definition ends (m : M unit) (s s' : State) : Prop :=
  m s = Done tt s' \/ exists e, m s = Thrown e s'.


(** [datacleaner_init] called [k] times in a row. *)
Definition initialised (k : nat) : M unit :=
  for_each (fun _ => datacleaner_init) (seq 0 k).

(** ** Pre- and postconditions of handlers *)

(** From a state with [P], the handler returns [a] in a state with
    [Q a], or throws [e] in a state with [E e], or leaves the model. *)
Definition triple {A} (P : State -> Prop) (m : M A)
    (Q : A -> State -> Prop) (E : JS.error -> State -> Prop) : Prop :=
  forall s, P s ->
    match m s with
    | Done a s' => Q a s'
    | Thrown e s' => E e s'
    | Beyond => True
    end.

(** The handler keeps [P], also when it throws. *)
Definition keeps {A} (P : State -> Prop) (m : M A) : Prop :=
  triple P m (fun _ => P) (fun _ => P).

(** The handler changes nothing, also when it throws. *)
Definition reads {A} (m : M A) : Prop :=
  forall s, triple (eq s) m (fun _ => eq s) (fun _ => eq s).

(** The handler throws only with [E]; [safe] handlers never throw. *)
Definition raises {A} (E : JS.error -> State -> Prop) (m : M A) : Prop :=
  triple (fun _ => True) m (fun _ _ => True) E.


(** The requests for a widget among the calls of [kernel.execute]: those
    whose handler is [display_widgets] on a wrapper. *)
Definition is_widget_request (r : Request) : bool :=
  match req_output r with
  | widget_output _ => true
  | _ => false
  end.

Definition widget_requests (s : State) : list Request :=
  List.filter is_widget_request (sent s).

(** A value of the reply without a [length]: a number, a boolean or an
    object that has no property of that name. *)
Definition lengthless (v : JS.value) : bool :=
  match v with
  | JS.VBool _ | JS.VNum _ | JS.VFloat _ => true
  | JS.VObj props => bool_decide (JS.last_binding "length" props = None)
  | _ => false
  end.

(** The number of rows that the redisplay loops find open on a table:
    the columns whose cell is not [hidden], and the dataframes whose
    first child row has no cell that is both [pipeline_widget] and
    [hidden]. *)
Definition column_shown (c : Column) : bool :=
  negb (hasClass "hidden" (col_row c)).

Definition frame_shown (d : Frame) : bool :=
  negb (hasClass "pipeline_widget" (frame_row d)
        && hasClass "hidden" (frame_row d)).

Definition shown_rows (t : list Frame) : nat :=
  length (List.filter column_shown (mjoin (frame_cols <$> t)))
  + length (List.filter frame_shown t).

(** The page [browsing] after the panel has been hidden again from the
    toolbar: the dataframe and its column are still open. *)
Definition folded : State := after (toggle_datacleaner;; drain 8) browsing.


(** The row that [html_table] makes for a descriptor whose ids name
    nothing on the page: every cell has the class that the script writes
    when [attr('class')] is undefined. *)
Definition collapsed_column (frame : string) (c : ColumnDescriptor) : Column :=
  {| col_frame := frame; col_id := colId c; col_name := colname c;
     col_dtype := dtype c; col_nulls := null_percentage c;
     col_distinct := distinct c;
     col_anchor := ["toggleColumn"; "arrow-right"];
     col_row := ["hidden"]; col_content := Loading |}.

Definition collapsed_frame (d : DataframeDescriptor) : Frame :=
  {| frame_id := dfId d; frame_name := dfName d; frame_shape := dfShape d;
     frame_colnames := dfColnames d;
     frame_anchor := ["toggleDataframe"; "arrow-right"];
     frame_row := ["pipeline_widget"; "hidden"]; frame_content := Loading;
     frame_table := ["hidden"];
     frame_cols := collapsed_column (dfId d) <$> dfCols d |}.











(** * Properties *)

(** ** Running handlers *)

Ltac step_m :=
  unfold skip, execute, console_warn, defer, warn_error, in_model,
    throw, beyond, get, modify, lift;
  unfold mbind, mret, M_bind, M_ret.

Lemma bind_done {A B} (m : M A) (k : A -> M B) (s s' : State) (a : A) :
  m s = Done a s' -> (m ≫= k) s = k a s'.
Proof. intros H. unfold mbind, M_bind. by rewrite H. Qed.

(** ** The pages of the examples *)

(** The example pages are reached with every handler returning. *)
Example ready_reached : drain 8 loaded = Done tt ready.
Proof. vm_compute. reflexivity. Qed.

Example listed_reached :
  (deliver 1 (stream_msg (Some one_frame_text));; drain 8) ready
  = Done tt listed.
Proof. vm_compute. reflexivity. Qed.

Example opened_reached : (toggle_datacleaner;; drain 8) listed = Done tt opened.
Proof. vm_compute. reflexivity. Qed.

Example browsing_reached :
  (click_toggleDataframe 0;; click_toggleColumn 0 0;;
   deliver 4 display_data_msg) opened = Done tt browsing.
Proof. vm_compute. reflexivity. Qed.

(** After the load: the creation snippet and one poll have been sent,
    nothing waits, the panel is hidden. *)
Example ready_page :
  sent ready = [create_request; poll_request]
  /\ tasks ready = [] /\ wrapper_visible ready = false /\ table ready = [].
Proof. vm_compute. done. Qed.

(** The reply [one_frame_text] is the list [one_frame]. *)
Example one_frame_denoted : denotes one_frame_text one_frame.
Proof. eexists. split; vm_compute; reflexivity. Qed.

(** ** The loaders and the reply handler of a widget *)

(** C8: with the panel hidden, [display_column_widget] and
    [display_pipeline_widget] do nothing: the state is the same, so no
    call of [kernel.execute] is made and no placeholder is changed. *)
Theorem loaders_idle_when_hidden (s : State) (dataframe_id column_id : string) :
  wrapper_visible s = false ->
  display_column_widget dataframe_id column_id s = Done tt s
  /\ display_pipeline_widget dataframe_id s = Done tt s.
Proof.
  intros Hhid.
  unfold display_column_widget, display_pipeline_widget.
  step_m. rewrite Hhid. done.
Qed.

Lemma loaders_idle_when_hidden_witness :
  wrapper_visible listed = false
  /\ display_column_widget "1" "1_0" listed = Done tt listed
  /\ display_pipeline_widget "1" listed = Done tt listed.
Proof.
  split; [reflexivity | apply (loaders_idle_when_hidden listed "1" "1_0")].
  reflexivity.
Defined.

(** [display_widgets] by the type of the message. *)
Lemma display_widgets_effect (msg : Message) (wrapper : nat) (s : State) :
  display_widgets msg wrapper s =
  Done tt
    (if String.eqb (msg_type msg) "display_data"
     then set_nodes (alter (add_output msg) wrapper (nodes s)) s
     else if String.eqb (msg_type msg) "error"
     then set_console
            (console s ++ [log_prefix +:+ shown (msg_evalue msg);
                           log_prefix +:+ shown (joined (msg_traceback msg))]) s
     else s).
Proof.
  unfold display_widgets. step_m.
  destruct (String.eqb (msg_type msg) "display_data") eqn:Hd.
  - apply String.eqb_eq in Hd. rewrite Hd. simpl. done.
  - destruct (String.eqb (msg_type msg) "error") eqn:He; simpl.
    + unfold console_warn, modify, set_console. simpl.
      by rewrite <- (assoc_L (++)).
    + done.
Qed.


(** ** [html_table] on a descriptor list *)

Lemma read_id_field (props : list (string * JS.value)) (k x : string) (s : State) :
  as_id (field k props) = Some x ->
  read_id (JS.VObj props) k s = Done x s.
Proof.
  unfold read_id, lift, field. simpl.
  destruct (JS.last_binding k props) as [w|]; simpl; [|done].
  destruct w; simpl; try done; intros [= <-]; done.
Qed.

Lemma read_field (props : list (string * JS.value)) (k : string) (s : State) :
  read (JS.VObj props) k s = Done (field k props) s.
Proof. done. Qed.

Lemma html_column_of (v : JS.value) (c : ColumnDescriptor) (frame : string)
    (s : State) :
  as_column v = Some c ->
  html_column frame v s =
  match column_of s frame c with
  | Some col => Done col s
  | None => Beyond
  end.
Proof.
  destruct v as [| | | | | |?|props]; try done. simpl.
  destruct (as_id (field "colId" props)) as [x|] eqn:Hid; [|done]. simpl.
  destruct (field "description" props) as [| | | | | |?|d] eqn:Hd; try done.
  intros [= <-]. unfold html_column, column_of. simpl.
  rewrite (bind_done _ _ _ _ _ (read_id_field _ _ _ s Hid)).
  rewrite !(bind_done _ _ _ _ _ (read_field _ _ s)). rewrite Hd.
  rewrite !(bind_done _ _ _ _ _ (read_field _ _ s)).
  unfold placeholder_class, in_model, mbind, M_bind.
  destruct (row_class s (x +:+ "_row")); done.
Qed.

Lemma html_columns_of (vs : list JS.value) (cs : list ColumnDescriptor)
    (frame : string) (s : State) :
  mapM as_column vs = Some cs ->
  map_each (html_column frame) vs s =
  match mapM (column_of s frame) cs with
  | Some cols => Done cols s
  | None => Beyond
  end.
Proof.
  revert cs. induction vs as [|v vs IH]; intros cs; simpl.
  - intros [= <-]. done.
  - destruct (as_column v) as [c|] eqn:Hc; [|done]. simpl.
    destruct (mapM as_column vs) as [cs'|]; [|done]. simpl.
    intros [= <-]. simpl.
    unfold mbind at 1, M_bind. rewrite (html_column_of _ _ _ _ Hc).
    destruct (column_of s frame c); [|done]. simpl.
    unfold mbind at 1, M_bind. rewrite (IH cs' eq_refl).
    destruct (mapM (column_of s frame) cs'); done.
Qed.

Lemma html_frame_of (v : JS.value) (d : DataframeDescriptor) (s : State) :
  as_frame v = Some d ->
  html_frame v s =
  match frame_of s d with
  | Some row => Done row s
  | None => Beyond
  end.
Proof.
  destruct v as [| | | | | |?|props]; try done. simpl.
  destruct (as_id (field "dfId" props)) as [x|] eqn:Hid; [|done]. simpl.
  destruct (field "dfCols" props) as [| | | | | |cs|?] eqn:Hcols; try done.
  destruct (mapM as_column cs) as [cols|] eqn:Hm; [|done]. simpl.
  intros [= <-]. unfold html_frame, frame_of. simpl.
  rewrite (bind_done _ _ _ _ _ (read_id_field _ _ _ s Hid)).
  rewrite !(bind_done _ _ _ _ _ (read_field _ _ s)).
  unfold placeholder_class, table_cell_class, in_model.
  unfold mbind at 1, M_bind.
  destruct (row_class s (x +:+ "_row")) as [row|]; [|done]. simpl.
  unfold mbind at 1, M_bind.
  destruct (table_class s ("table_" +:+ x)) as [sub|]; [|done]. simpl.
  rewrite !(bind_done _ _ _ _ _ (read_field _ _ s)). rewrite Hcols.
  unfold lift at 1. simpl. unfold mbind at 1, M_bind. simpl.
  unfold mbind at 1, M_bind. rewrite (html_columns_of _ _ _ _ Hm).
  destruct (mapM (column_of s x) cols); done.
Qed.

Lemma html_frames_of (vs : list JS.value) (D : list DataframeDescriptor)
    (s : State) :
  mapM as_frame vs = Some D ->
  map_each html_frame vs s =
  match rows_of s D with
  | Some rows => Done rows s
  | None => Beyond
  end.
Proof.
  unfold rows_of. revert D. induction vs as [|v vs IH]; intros D; simpl.
  - intros [= <-]. done.
  - destruct (as_frame v) as [d|] eqn:Hd; [|done]. simpl.
    destruct (mapM as_frame vs) as [D'|]; [|done]. simpl.
    intros [= <-]. simpl.
    unfold mbind at 1, M_bind. rewrite (html_frame_of _ _ _ Hd).
    destruct (frame_of s d); [|done]. simpl.
    unfold mbind at 1, M_bind. rewrite (IH D' eq_refl).
    destruct (mapM (frame_of s) D'); done.
Qed.

Lemma mapM_as_frame_length (vs : list JS.value) (D : list DataframeDescriptor) :
  mapM as_frame vs = Some D -> length vs = length D.
Proof. intros H. by apply length_mapM in H. Qed.

(** The lookups of [html_table] read the table and the nodes only. *)
Lemma rows_of_n_dataframes (n : option nat) (s : State)
    (D : list DataframeDescriptor) :
  rows_of (set_n_dataframes n s) D = rows_of s D.
Proof. done. Qed.

(** [html_table] on a reply that denotes [D]: the rows of [D], each with
    the class remembered from the page, and [n_dataframes] set. *)
Lemma html_table_of (text : string) (D : list DataframeDescriptor) (s : State) :
  denotes text D ->
  html_table text s =
  match rows_of s D with
  | Some rows => Done rows (set_n_dataframes (Some (length D)) s)
  | None => Beyond
  end.
Proof.
  intros (v & Hparse & Hdesc). unfold html_table.
  unfold lift at 1. unfold mbind at 1, M_bind. rewrite Hparse.
  destruct v as [| | | | | |items|?]; try done. simpl in Hdesc.
  unfold lift at 1. simpl. unfold mbind at 1, M_bind. simpl.
  unfold modify, mbind, M_bind.
  rewrite (html_frames_of _ _ _ Hdesc). rewrite rows_of_n_dataframes.
  rewrite (mapM_as_frame_length _ _ Hdesc).
  destruct (rows_of s D); done.
Qed.

(** ** An empty list *)

(** C5: a redraw with the empty descriptor list leaves a table without
    rows and a badge that is hidden (or not made yet), whatever the page
    was before; [n_dataframes] is zero, and nothing is asked from the
    kernel. *)
Theorem empty_list_redraw (s : State) (msg : Message) (text : string) :
  msg_type msg = "stream" ->
  msg_text msg = Some text ->
  denotes text [] ->
  exists s',
    code_exec_callback msg s = Done tt s'
    /\ table s' = []
    /\ n_dataframes s' = Some 0
    /\ (forall b, badge s' = Some b -> badge_hidden b = true)
    /\ sent s' = sent s.
Proof.
  intros Hty Htx Hden.
  unfold code_exec_callback. rewrite Hty, Htx. simpl.
  eexists. split.
  - unfold mbind at 1, M_bind. unfold mbind at 1, M_bind.
    unfold mbind at 1, M_bind.
    rewrite (html_table_of _ _ _ Hden). simpl.
    unfold update_badge, badge_set_hidden, redisplay.
    step_m. simpl. reflexivity.
  - simpl. repeat split; try done.
    intros b. destruct (badge s); simpl; [|done]. by intros [= <-].
Qed.

Lemma empty_list_redraw_witness :
  exists s',
    code_exec_callback (stream_msg (Some "[]
")) opened = Done tt s'
    /\ table s' = []
    /\ n_dataframes s' = Some 0
    /\ (forall b, badge s' = Some b -> badge_hidden b = true)
    /\ sent s' = sent opened.
Proof.
  apply (empty_list_redraw opened (stream_msg (Some "[]
")) "[]
"); [reflexivity | reflexivity |].
  exists (JS.VArr []). split; reflexivity.
Defined.

(** ** The panel toggle *)

Lemma run_task_at_end (s : State) (ts : list Task) (t : Task) :
  tasks s = ts ++ [t] ->
  run_task (length ts) s = run t (set_tasks ts s).
Proof.
  intros H. unfold run_task. step_m. rewrite H.
  rewrite list_lookup_middle by done. simpl. rewrite H.
  by rewrite delete_middle, (right_id_L [] (++)).
Qed.

(** A toggle and the two callbacks it leads to: the animation ends with
    the display changed, the flag written and the notebook dirty; the
    callback of [require] then sends the introspection command, with
    [code_exec_callback] as its handler. *)
Lemma toggle_cycle (s : State) :
  metadata s <> MetaUndefined ->
  let k := length (tasks s) in
  let s1 := set_tasks (tasks s ++ [ToggleDone]) s in
  let s2 := set_tasks (tasks s ++ [RefreshLoaded])
              (set_dirty (flagged (negb (wrapper_visible s))
                 (set_wrapper_visible (negb (wrapper_visible s)) s))) in
  let s3 := set_tasks (tasks s)
              (set_sent (sent s ++ [poll_request]) s2) in
  toggle_datacleaner s = Done tt s1
  /\ run_task k s1 = Done tt s2
  /\ run_task k s2 = Done tt s3.
Proof.
  intros Hmeta k s1 s2 s3. split; [done|]. split.
  - subst k. rewrite (run_task_at_end s1 (tasks s) ToggleDone) by done.
    subst s1 s2.
    unfold run, toggle_complete, data_cleaner, varRefresh, flagged.
    step_m. simpl. destruct (metadata s); done.
  - subst k. rewrite (run_task_at_end s2 (tasks s) RefreshLoaded) by done.
    subst s2 s3. unfold flagged. simpl.
    destruct (metadata s) eqn:Hm; [congruence|..]; done.
Qed.



(** ** Ids *)

Lemma all_word_app (a b : string) :
  all_word (a +:+ b) = all_word a && all_word b.
Proof.
  induction a as [|c a IH]; simpl; [done|].
  rewrite IH. by rewrite andb_assoc.
Qed.

Lemma simple_id_suffix (a b : string) :
  all_word a = true -> simple_id b = true -> simple_id (a +:+ b) = true.
Proof.
  unfold simple_id. intros Ha Hb. apply andb_true_iff in Hb as [Hne Hb].
  rewrite all_word_app, Ha, Hb.
  destruct a; [|done]. by rewrite andb_true_r.
Qed.



Lemma first_with_id_Some (l : list (string * Ref)) (k : string) (r : Ref) :
  (k, r) ∈ l ->
  (forall r', (k, r') ∈ l -> r' = r) ->
  first_with_id k l = Some r.
Proof.
  induction l as [|[k' r'] l IH]; intros Hin Huniq; simpl.
  - by apply elem_of_nil in Hin.
  - destruct (String.eqb k' k) eqn:Hk.
    + apply String.eqb_eq in Hk as ->. f_equal. apply Huniq. by left.
    + apply elem_of_cons in Hin as [[= -> ->]|Hin].
      * by rewrite String.eqb_refl in Hk.
      * apply IH; [done|]. intros r'' Hr''. apply Huniq. by right.
Qed.

Lemma first_with_id_None (l : list (string * Ref)) (k : string) :
  (forall r, (k, r) ∉ l) -> first_with_id k l = None.
Proof.
  induction l as [|[k' r'] l IH]; intros Hnot; simpl; [done|].
  destruct (String.eqb k' k) eqn:Hk.
  - apply String.eqb_eq in Hk as ->. destruct (Hnot r'). by left.
  - apply IH. intros r Hr. apply (Hnot r). by right.
Qed.


Lemma NoDup_fst_functional {A B} (l : list (A * B)) (x : A) (y1 y2 : B) :
  NoDup (l.*1) -> (x, y1) ∈ l -> (x, y2) ∈ l -> y1 = y2.
Proof.
  induction l as [|[a b] l IH]; csimpl; intros Hnd H1 H2.
  - by apply elem_of_nil in H1.
  - apply NoDup_cons in Hnd as [Hnot Hnd].
    apply elem_of_cons in H1 as [[= -> ->]|H1];
      apply elem_of_cons in H2 as [[= ->]|H2]; try done.
    + destruct Hnot. apply list_elem_of_fmap. by exists (a, y2).
    + subst. destruct Hnot. apply list_elem_of_fmap. by exists (a, y1).
    + by apply IH.
Qed.

(** Membership in the lists of ids. *)
Lemma elem_of_join_imap {A B} (f : nat -> A -> list B) (l : list A) (x : B) :
  x ∈ mjoin (imap f l) <-> exists i a, l !! i = Some a /\ x ∈ f i a.
Proof.
  rewrite list_elem_of_join. split.
  - intros (k & Hx & Hk). apply elem_of_lookup_imap in Hk as (i & a & -> & Hi).
    eauto.
  - intros (i & a & Hi & Hx). exists (f i a). split; [done|].
    by apply elem_of_lookup_imap_2.
Qed.

(** ** Coherent pages *)

Lemma column_at_Some (s : State) (i j : nat) (c : Column) :
  column_at s i j = Some c <->
  exists d, table s !! i = Some d /\ frame_cols d !! j = Some c.
Proof. unfold column_at. by rewrite bind_Some. Qed.

Lemma coherent_NoDup (s : State) :
  coherent s = true -> NoDup (reserved (table s)).*1.
Proof.
  unfold coherent. rewrite !andb_true_iff. intros [H _].
  by apply bool_decide_eq_true in H.
Qed.

Lemma coherent_frame (s : State) (i : nat) (d : Frame) :
  coherent s = true -> table s !! i = Some d ->
  all_word (frame_id d) = true
  /\ named (nodes s) (frame_id d) (frame_content d) = true.
Proof.
  unfold coherent. rewrite !andb_true_iff. intros [_ H] Hi.
  rewrite forallb_forall in H.
  specialize (H d). rewrite !andb_true_iff in H.
  apply H, list_elem_of_In, list_elem_of_lookup. eauto.
Qed.

Lemma coherent_column (s : State) (i j : nat) (c : Column) :
  coherent s = true -> column_at s i j = Some c ->
  all_word (col_id c) = true
  /\ named (nodes s) (col_id c) (col_content c) = true.
Proof.
  unfold coherent. rewrite !andb_true_iff. intros [_ H].
  rewrite column_at_Some. intros (d & Hi & Hj).
  rewrite forallb_forall in H.
  specialize (H d). rewrite !andb_true_iff in H.
  destruct H as [_ H].
  { apply list_elem_of_In, list_elem_of_lookup. eauto. }
  rewrite forallb_forall in H. specialize (H c).
  rewrite andb_true_iff in H.
  apply H, list_elem_of_In, list_elem_of_lookup. eauto.
Qed.

Lemma named_node (ns : list Node) (base : string) (c : content) (nd : Node) :
  named ns base c = true -> node_of ns c = Some nd ->
  node_id nd = base +:+ "_widget".
Proof.
  destruct c as [|n]; simpl; [done|].
  intros H Hn. rewrite Hn in H. by apply String.eqb_eq.
Qed.

Lemma elem_of_reserved (t : list Frame) (x : string * Ref) :
  x ∈ reserved t <-> exists i d, t !! i = Some d /\ x ∈ reserved_frame i d.
Proof. apply elem_of_join_imap. Qed.

Lemma elem_of_document_ids (s : State) (x : string * Ref) :
  x ∈ document_ids s <->
  exists i d, table s !! i = Some d /\ x ∈ frame_ids (nodes s) i d.
Proof. apply elem_of_join_imap. Qed.

Lemma elem_of_content_ids (ns : list Node) (r : Ref) (c : content)
    (x : string * Ref) :
  x ∈ content_ids ns r c <->
  exists nd, node_of ns c = Some nd /\ x = (node_id nd, r).
Proof.
  unfold content_ids. destruct (node_of ns c) as [nd|].
  - rewrite list_elem_of_singleton. split; [eauto|]. by intros (? & [= <-] & ->).
  - split; [by intros ?%elem_of_nil | by intros (? & ? & _)].
Qed.

Lemma elem_of_frame_ids (ns : list Node) (i : nat) (d : Frame)
    (x : string * Ref) :
  x ∈ frame_ids ns i d <->
  x = (frame_id d +:+ "_row", AtFrameRow i)
  \/ (exists nd, node_of ns (frame_content d) = Some nd
                 /\ x = (node_id nd, AtFrameWidget i))
  \/ x = ("table_" +:+ frame_id d, AtFrameTable i)
  \/ x = (frame_id d, AtInnerTable i)
  \/ exists j c, frame_cols d !! j = Some c
       /\ (x = (col_id c, AtColumnAnchor i j)
           \/ x = (col_id c +:+ "_row", AtColumnRow i j)
           \/ exists nd, node_of ns (col_content c) = Some nd
                         /\ x = (node_id nd, AtColumnWidget i j)).
Proof.
  unfold frame_ids. rewrite elem_of_cons, elem_of_app, !elem_of_cons.
  rewrite elem_of_content_ids, elem_of_join_imap.
  unfold column_ids. setoid_rewrite elem_of_cons. setoid_rewrite elem_of_cons.
  setoid_rewrite elem_of_content_ids. naive_solver.
Qed.

Lemma elem_of_reserved_frame (i : nat) (d : Frame) (x : string * Ref) :
  x ∈ reserved_frame i d <->
  x = (frame_id d +:+ "_row", AtFrameRow i)
  \/ x = (frame_id d +:+ "_widget", AtFrameWidget i)
  \/ x = ("table_" +:+ frame_id d, AtFrameTable i)
  \/ x = (frame_id d, AtInnerTable i)
  \/ exists j c, frame_cols d !! j = Some c
       /\ (x = (col_id c, AtColumnAnchor i j)
           \/ x = (col_id c +:+ "_row", AtColumnRow i j)
           \/ x = (col_id c +:+ "_widget", AtColumnWidget i j)).
Proof.
  unfold reserved_frame. rewrite elem_of_app, !elem_of_cons.
  rewrite elem_of_join_imap.
  unfold reserved_column. setoid_rewrite elem_of_cons.
  setoid_rewrite elem_of_cons. setoid_rewrite list_elem_of_singleton.
  rewrite elem_of_nil. naive_solver.
Qed.

(** On a coherent page every id of the document is a reserved id, at the
    place where it is reserved. *)
Lemma document_ids_reserved (s : State) (x : string * Ref) :
  coherent s = true -> x ∈ document_ids s -> x ∈ reserved (table s).
Proof.
  intros Hc. rewrite elem_of_document_ids, elem_of_reserved.
  intros (i & d & Hi & Hx). exists i, d. split; [done|].
  apply elem_of_frame_ids in Hx. apply elem_of_reserved_frame.
  destruct Hx as [->|[(nd & Hnd & ->)|[->|[->|(j & c & Hj & Hx)]]]]; auto.
  - right; left. destruct (coherent_frame s i d Hc Hi) as [_ Hn].
    by rewrite (named_node _ _ _ _ Hn Hnd).
  - do 4 right. exists j, c. split; [done|].
    destruct Hx as [->|[->|(nd & Hnd & ->)]]; auto.
    right; right.
    assert (Hcol : column_at s i j = Some c) by (apply column_at_Some; eauto).
    destruct (coherent_column s i j c Hc Hcol) as [_ Hn].
    by rewrite (named_node _ _ _ _ Hn Hnd).
Qed.

(** An id reserved at [r] resolves to [r] when the element is there, and
    to nothing otherwise. *)
Lemma lookup_present (s : State) (k : string) (r : Ref) :
  coherent s = true -> (k, r) ∈ document_ids s ->
  getElementById s k = Some r.
Proof.
  intros Hc Hin. apply first_with_id_Some; [done|].
  intros r' Hr'. eapply NoDup_fst_functional.
  - by apply coherent_NoDup.
  - by apply document_ids_reserved.
  - by apply document_ids_reserved.
Qed.

Lemma lookup_missing (s : State) (k : string) (r : Ref) :
  coherent s = true -> (k, r) ∈ reserved (table s) ->
  (k, r) ∉ document_ids s ->
  getElementById s k = None.
Proof.
  intros Hc Hres Hnot. apply first_with_id_None. intros r' Hr'.
  assert (r' = r) as ->; [|done].
  eapply NoDup_fst_functional.
  - by apply coherent_NoDup.
  - by apply document_ids_reserved.
  - done.
Qed.

Section Lookups.

Variable s : State.
Hypothesis Hcoh : coherent s = true.

Section OfFrame.
Variables (i : nat) (d : Frame).
Hypothesis Hi : table s !! i = Some d.

Lemma frame_row_id_simple : simple_id (frame_id d +:+ "_row") = true.
Proof.
  apply simple_id_suffix; [|done]. by apply (coherent_frame s i d).
Qed.

Lemma frame_widget_id_simple : simple_id (frame_id d +:+ "_widget") = true.
Proof.
  apply simple_id_suffix; [|done]. by apply (coherent_frame s i d).
Qed.


Lemma lookup_frame_row :
  getElementById s (frame_id d +:+ "_row") = Some (AtFrameRow i).
Proof.
  apply lookup_present; [done|]. apply elem_of_document_ids.
  exists i, d. split; [done|]. apply elem_of_frame_ids. by left.
Qed.


Lemma lookup_frame_widget :
  getElementById s (frame_id d +:+ "_widget") =
  match node_of (nodes s) (frame_content d) with
  | Some _ => Some (AtFrameWidget i)
  | None => None
  end.
Proof.
  destruct (node_of (nodes s) (frame_content d)) as [nd|] eqn:Hnd.
  - apply lookup_present; [done|]. apply elem_of_document_ids.
    exists i, d. split; [done|]. apply elem_of_frame_ids. right; left.
    exists nd. split; [done|].
    destruct (coherent_frame s i d Hcoh Hi) as [_ Hn].
    by rewrite (named_node _ _ _ _ Hn Hnd).
  - apply (lookup_missing s _ (AtFrameWidget i)); [done| |].
    + apply elem_of_reserved. exists i, d. split; [done|].
      apply elem_of_reserved_frame. auto.
    + rewrite elem_of_document_ids. intros (i' & d' & Hi' & Hx).
      apply elem_of_frame_ids in Hx.
      destruct Hx as [[=]|[(nd & Hnd' & [= _ <-])|[[=]|[[=]|(j & c & _ & Hx)]]]].
      * rewrite Hi in Hi'. injection Hi' as <-. by rewrite Hnd in Hnd'.
      * destruct Hx as [[=]|[[=]|(? & _ & [=])]].
Qed.



Lemma widget_empty_frame :
  widget_empty s (frame_id d +:+ "_widget") =
  Some (no_output (node_of (nodes s) (frame_content d))).
Proof.
  unfold widget_empty.
  rewrite frame_widget_id_simple, lookup_frame_widget.
  destruct (node_of (nodes s) (frame_content d)) eqn:Hnd; [|done].
  by rewrite Hi; simpl; rewrite Hnd.
Qed.

Lemma with_html_frame (x : content) :
  with_html s (frame_id d +:+ "_row") x =
  Some (alter_frame (set_frame_content x) i s).
Proof.
  unfold with_html. by rewrite frame_row_id_simple, lookup_frame_row.
Qed.

End OfFrame.

Section OfColumn.
Variables (i j : nat) (c : Column).
Hypothesis Hij : column_at s i j = Some c.

Lemma column_in_document (x : string * Ref) :
  x = (col_id c, AtColumnAnchor i j)
  \/ x = (col_id c +:+ "_row", AtColumnRow i j)
  \/ (exists nd, node_of (nodes s) (col_content c) = Some nd
                 /\ x = (node_id nd, AtColumnWidget i j)) ->
  x ∈ document_ids s.
Proof.
  intros Hx. apply column_at_Some in Hij as (d & Hi & Hj).
  apply elem_of_document_ids. exists i, d. split; [done|].
  apply elem_of_frame_ids. do 4 right. eauto.
Qed.

Lemma column_row_id_simple : simple_id (col_id c +:+ "_row") = true.
Proof.
  apply simple_id_suffix; [|done]. by apply (coherent_column s i j c).
Qed.

Lemma column_widget_id_simple : simple_id (col_id c +:+ "_widget") = true.
Proof.
  apply simple_id_suffix; [|done]. by apply (coherent_column s i j c).
Qed.

Lemma lookup_column_row :
  getElementById s (col_id c +:+ "_row") = Some (AtColumnRow i j).
Proof. apply lookup_present; [done|]. apply column_in_document. auto. Qed.

Lemma lookup_column_widget :
  getElementById s (col_id c +:+ "_widget") =
  match node_of (nodes s) (col_content c) with
  | Some _ => Some (AtColumnWidget i j)
  | None => None
  end.
Proof.
  destruct (node_of (nodes s) (col_content c)) as [nd|] eqn:Hnd.
  - apply lookup_present; [done|]. apply column_in_document.
    right; right. exists nd. split; [done|].
    destruct (coherent_column s i j c Hcoh Hij) as [_ Hn].
    by rewrite (named_node _ _ _ _ Hn Hnd).
  - apply (lookup_missing s _ (AtColumnWidget i j)); [done| |].
    + pose proof Hij as Hij'.
      apply column_at_Some in Hij' as (d & Hi & Hj).
      apply elem_of_reserved. exists i, d. split; [done|].
      apply elem_of_reserved_frame. do 4 right. exists j, c. auto.
    + rewrite elem_of_document_ids. intros (i' & d' & Hi' & Hx).
      apply elem_of_frame_ids in Hx.
      destruct Hx as [[=]|[(nd & _ & [=])|[[=]|[[=]|(j' & c' & Hj' & Hx)]]]].
      destruct Hx as [[=]|[[=]|(nd & Hnd' & [= _ <- <-])]].
      assert (column_at s i j = Some c') as Hc'
        by (apply column_at_Some; eauto).
      rewrite Hij in Hc'. injection Hc' as <-. by rewrite Hnd in Hnd'.
Qed.

Lemma row_class_column :
  row_class s (col_id c +:+ "_row") = Some (Some (col_row c)).
Proof.
  unfold row_class.
  by rewrite column_row_id_simple, lookup_column_row, Hij.
Qed.

Lemma widget_empty_column :
  widget_empty s (col_id c +:+ "_widget") =
  Some (no_output (node_of (nodes s) (col_content c))).
Proof.
  unfold widget_empty.
  rewrite column_widget_id_simple, lookup_column_widget.
  destruct (node_of (nodes s) (col_content c)) eqn:Hnd; [|done].
  by rewrite Hij; simpl; rewrite Hnd.
Qed.

Lemma with_html_column (x : content) :
  with_html s (col_id c +:+ "_row") x =
  Some (alter_column (set_col_content x) i j s).
Proof.
  unfold with_html. by rewrite column_row_id_simple, lookup_column_row.
Qed.

End OfColumn.

End Lookups.

Lemma coherent_spec (s : State) :
  coherent s = true <->
  NoDup (reserved (table s)).*1
  /\ (forall i d, table s !! i = Some d ->
        all_word (frame_id d) = true
        /\ named (nodes s) (frame_id d) (frame_content d) = true)
  /\ (forall i j c, column_at s i j = Some c ->
        all_word (col_id c) = true
        /\ named (nodes s) (col_id c) (col_content c) = true).
Proof.
  split.
  - intros H. split; [by apply coherent_NoDup|]. split.
    + intros i d. by apply coherent_frame.
    + intros i j c. by apply coherent_column.
  - intros (Hnd & Hf & Hc). unfold coherent. rewrite !andb_true_iff.
    split; [by apply bool_decide_eq_true|].
    apply forallb_forall. intros d Hd.
    apply list_elem_of_In, list_elem_of_lookup in Hd as [i Hi].
    rewrite !andb_true_iff. split; [by apply (Hf i)|].
    apply forallb_forall. intros c Hcin.
    apply list_elem_of_In, list_elem_of_lookup in Hcin as [j Hj].
    rewrite andb_true_iff. apply (Hc i j). apply column_at_Some. eauto.
Qed.

(** *** Changes of the table that keep the ids *)

Lemma imap_alter_same {A B} (g : nat -> A -> B) (h : A -> A) (i : nat)
    (l : list A) :
  (forall a, l !! i = Some a -> g i (h a) = g i a) ->
  imap g (alter h i l) = imap g l.
Proof.
  intros H. apply list_eq. intros k.
  rewrite !list_lookup_imap, list_lookup_alter.
  destruct (decide (i = k)) as [->|]; [|done].
  destruct (l !! k) as [a|] eqn:Ha; simpl; [|done].
  f_equal. by apply H.
Qed.

Lemma reserved_frame_alter_cols (f : Column -> Column) (i j : nat) (d : Frame) :
  (forall c, col_id (f c) = col_id c) ->
  reserved_frame i (set_frame_cols (alter f j) d) = reserved_frame i d.
Proof.
  intros Hid. unfold reserved_frame. simpl. do 5 f_equal.
  apply imap_alter_same. intros c _. unfold reserved_column. by rewrite Hid.
Qed.

Lemma reserved_alter_column (f : Column -> Column) (i j : nat) (t : list Frame) :
  (forall c, col_id (f c) = col_id c) ->
  reserved (alter (set_frame_cols (alter f j)) i t) = reserved t.
Proof.
  intros Hid. unfold reserved. f_equal. apply imap_alter_same.
  intros d _. by apply reserved_frame_alter_cols.
Qed.

Lemma reserved_alter_frame (f : Frame -> Frame) (i : nat) (t : list Frame) :
  (forall d, frame_id (f d) = frame_id d) ->
  (forall d, frame_cols (f d) = frame_cols d) ->
  reserved (alter f i t) = reserved t.
Proof.
  intros Hid Hcols. unfold reserved. f_equal. apply imap_alter_same.
  intros d _. unfold reserved_frame. by rewrite Hid, Hcols.
Qed.

Lemma table_alter_frame (f : Frame -> Frame) (i i' : nat) (s : State) :
  table (alter_frame f i s) !! i' =
  if decide (i = i') then f <$> table s !! i' else table s !! i'.
Proof.
  unfold alter_frame. simpl. rewrite list_lookup_alter.
  by destruct (decide (i = i')) as [->|].
Qed.

Lemma column_at_alter_frame (f : Frame -> Frame) (i i' j' : nat) (s : State) :
  (forall d, frame_cols (f d) = frame_cols d) ->
  column_at (alter_frame f i s) i' j' = column_at s i' j'.
Proof.
  intros Hcols. unfold column_at. rewrite table_alter_frame.
  destruct (decide (i = i')) as [->|]; [|done].
  destruct (table s !! i') as [d|]; simpl; [|done]. by rewrite Hcols.
Qed.

Lemma column_at_alter_column (f : Column -> Column) (i j i' j' : nat) (s : State) :
  column_at (alter_column f i j s) i' j' =
  if decide (i = i' /\ j = j') then f <$> column_at s i' j'
  else column_at s i' j'.
Proof.
  unfold column_at, alter_column. rewrite table_alter_frame.
  destruct (decide (i = i')) as [->|Hne].
  - destruct (table s !! i') as [d|]; simpl.
    + rewrite list_lookup_alter.
      destruct (decide (j = j')) as [->|]; destruct (decide (_ /\ _));
        naive_solver.
    + by destruct (decide _).
  - destruct (decide _); naive_solver.
Qed.

Lemma table_alter_column (f : Column -> Column) (i j i' : nat) (s : State)
    (d : Frame) :
  table (alter_column f i j s) !! i' = Some d ->
  exists d0, table s !! i' = Some d0
    /\ frame_id d = frame_id d0 /\ frame_content d = frame_content d0
    /\ frame_row d = frame_row d0 /\ frame_table d = frame_table d0
    /\ frame_anchor d = frame_anchor d0.
Proof.
  unfold alter_column. rewrite table_alter_frame.
  destruct (decide (i = i')) as [->|]; [|by eauto 10].
  destruct (table s !! i') as [d0|]; simpl; [|done].
  intros [= <-]. by eauto 10.
Qed.

Lemma coherent_alter_column (f : Column -> Column) (i j : nat) (s : State) :
  coherent s = true ->
  (forall c, col_id (f c) = col_id c) ->
  (forall c, column_at s i j = Some c ->
     named (nodes s) (col_id c) (col_content (f c)) = true) ->
  coherent (alter_column f i j s) = true.
Proof.
  intros Hc Hid Hnamed. apply coherent_spec in Hc as (Hnd & Hf & Hcol).
  apply coherent_spec. split; [|split].
  - unfold alter_column, alter_frame. simpl. by rewrite reserved_alter_column.
  - intros i' d Hd. apply table_alter_column in Hd
      as (d0 & Hd0 & -> & -> & _). by apply (Hf i').
  - intros i' j' c. rewrite column_at_alter_column.
    destruct (decide _) as [[<- <-]|_]; [|by apply Hcol].
    destruct (column_at s i j) as [c0|] eqn:Hc0; simpl; [|done].
    intros [= <-]. rewrite Hid. split; [by apply (Hcol i j)|by apply Hnamed].
Qed.

Lemma coherent_alter_frame (f : Frame -> Frame) (i : nat) (s : State) :
  coherent s = true ->
  (forall d, frame_id (f d) = frame_id d) ->
  (forall d, frame_cols (f d) = frame_cols d) ->
  (forall d, table s !! i = Some d ->
     named (nodes s) (frame_id d) (frame_content (f d)) = true) ->
  coherent (alter_frame f i s) = true.
Proof.
  intros Hc Hid Hcols Hnamed. apply coherent_spec in Hc as (Hnd & Hf & Hcol).
  apply coherent_spec. split; [|split].
  - unfold alter_frame. simpl. by rewrite reserved_alter_frame.
  - intros i' d. rewrite table_alter_frame.
    destruct (decide (i = i')) as [<-|]; [|by apply Hf].
    destruct (table s !! i) as [d0|] eqn:Hd0; simpl; [|done].
    intros [= <-]. rewrite Hid. split; [by apply (Hf i)|by apply Hnamed].
  - intros i' j' c. rewrite column_at_alter_frame by done. by apply Hcol.
Qed.

(** *** New wrappers and new outputs *)

Lemma named_add_node (ns : list Node) (nd : Node) (base : string) (c : content) :
  named ns base c = true -> named (ns ++ [nd]) base c = true.
Proof.
  destruct c as [|n]; simpl; [done|].
  destruct (ns !! n) as [x|] eqn:Hn; [|done].
  by rewrite (lookup_app_l_Some _ _ _ _ Hn).
Qed.

Lemma coherent_add_node (s : State) (nd : Node) :
  coherent s = true -> coherent (set_nodes (nodes s ++ [nd]) s) = true.
Proof.
  intros Hc. apply coherent_spec in Hc as (Hnd & Hf & Hcol).
  apply coherent_spec. split; [done|]. split.
  - intros i d Hd. destruct (Hf i d Hd). split; [done|].
    by apply named_add_node.
  - intros i j c Hcij. destruct (Hcol i j c Hcij). split; [done|].
    by apply named_add_node.
Qed.

Lemma named_add_output (ns : list Node) (msg : Message) (k : nat)
    (base : string) (c : content) :
  named (alter (add_output msg) k ns) base c = named ns base c.
Proof.
  destruct c as [|n]; simpl; [done|]. rewrite list_lookup_alter.
  destruct (decide (k = n)) as [->|]; [|done].
  by destruct (ns !! n).
Qed.

Lemma coherent_add_output (s : State) (msg : Message) (k : nat) :
  coherent s = true ->
  coherent (set_nodes (alter (add_output msg) k (nodes s)) s) = true.
Proof.
  intros Hc. apply coherent_spec in Hc as (Hnd & Hf & Hcol).
  apply coherent_spec. split; [done|]. split.
  - intros i d Hd. simpl. rewrite named_add_output. by apply (Hf i).
  - intros i j c Hcij. simpl. rewrite named_add_output. by apply (Hcol i j).
Qed.

(** *** The loaders on a coherent page *)

Lemma named_fresh (ns : list Node) (base : string) :
  named (ns ++ [fresh_node base]) base (Attached (length ns)) = true.
Proof.
  simpl. rewrite list_lookup_middle by done. simpl. apply String.eqb_refl.
Qed.

Lemma coherent_load_column (s : State) (i j : nat) (c : Column) :
  coherent s = true -> column_at s i j = Some c ->
  coherent (load_column i j c s) = true.
Proof.
  intros Hc Hij. unfold load_column.
  change (coherent (alter_column (set_col_content (Attached (length (nodes s)))) i j
            (set_nodes (nodes s ++ [fresh_node (col_id c)]) s)) = true).
  apply coherent_alter_column; [by apply coherent_add_node|done|].
  intros c' Hc'. change (column_at s i j = Some c') in Hc'.
  rewrite Hij in Hc'. injection Hc' as <-. apply named_fresh.
Qed.

Lemma coherent_load_frame (s : State) (i : nat) (d : Frame) :
  coherent s = true -> table s !! i = Some d ->
  coherent (load_frame i d s) = true.
Proof.
  intros Hc Hi. unfold load_frame.
  change (coherent (alter_frame (set_frame_content (Attached (length (nodes s)))) i
            (set_nodes (nodes s ++ [fresh_node (frame_id d)]) s)) = true).
  apply coherent_alter_frame; [by apply coherent_add_node|done|done|].
  intros d' Hd'. change (table s !! i = Some d') in Hd'.
  rewrite Hi in Hd'. injection Hd' as <-. apply named_fresh.
Qed.

(** [display_column_widget] on the anchor of the column at [(i, j)]: a
    request is made when the panel is visible and the wrapper of the
    column holds no output. *)
Lemma display_column_widget_at (s : State) (i j : nat) (c : Column) :
  coherent s = true -> column_at s i j = Some c ->
  display_column_widget (col_frame c) (col_id c) s =
  Done tt (if wrapper_visible s && negb (loaded_content s (col_content c))
           then load_column i j c s else s).
Proof.
  intros Hc Hij. unfold display_column_widget, loaded_content.
  rewrite negb_involutive. step_m.
  destruct (wrapper_visible s); [|done]. simpl.
  unfold widget_is_empty, in_model.
  rewrite (widget_empty_column s Hc i j c Hij).
  destruct (no_output _); [|done].
  unfold new_node, placeholder_html.
  rewrite (with_html_column _ (coherent_add_node s _ Hc) i j c Hij).
  done.
Qed.

Lemma display_pipeline_widget_at (s : State) (i : nat) (d : Frame) :
  coherent s = true -> table s !! i = Some d ->
  display_pipeline_widget (frame_id d) s =
  Done tt (if wrapper_visible s && negb (loaded_content s (frame_content d))
           then load_frame i d s else s).
Proof.
  intros Hc Hi. unfold display_pipeline_widget, loaded_content.
  rewrite negb_involutive. step_m.
  destruct (wrapper_visible s); [|done]. simpl.
  unfold widget_is_empty, in_model.
  rewrite (widget_empty_frame s Hc i d Hi).
  destruct (no_output _); [|done].
  unfold new_node, placeholder_html.
  rewrite (with_html_frame _ (coherent_add_node s _ Hc) i d Hi).
  done.
Qed.

(** ** The redisplay loops *)



Lemma coherent_toggle_column_anchor (s : State) (i j : nat) :
  coherent s = true ->
  coherent (alter_column (set_col_anchor toggle_arrow) i j s) = true.
Proof.
  intros Hc. apply coherent_alter_column; [done|done|].
  intros c Hij. by destruct (coherent_column s i j c Hc Hij).
Qed.

Lemma coherent_toggle_frame_anchor (s : State) (i : nat) :
  coherent s = true ->
  coherent (alter_frame (set_frame_anchor toggle_arrow) i s) = true.
Proof.
  intros Hc. apply coherent_alter_frame; [done|done|done|].
  intros d Hi. by destruct (coherent_frame s i d Hc Hi).
Qed.







(** *** Wrappers without output *)











(** *** Requests made by the loops *)


Lemma frame_requested_anchor_column (k : nat) (s : State)
    (f : Column -> Column) (i j i' : nat) :
  frame_requested k s i' ->
  frame_requested k (alter_column f i j s) i'.
Proof.
  intros (d & n & m & Hd & Hn & Hnd & Hk & Hm).
  unfold frame_requested, alter_column. rewrite table_alter_frame, Hd.
  destruct (decide _); eauto 10.
Qed.






Lemma frame_requested_grow (k : nat) (s : State) (nd : Node) (r : Request)
    (i : nat) :
  frame_requested k s i ->
  frame_requested k (set_sent (sent s ++ [r]) (set_nodes (nodes s ++ [nd]) s)) i.
Proof.
  intros (d & n & m & Hd & Hn & Hnd & Hk & Hm).
  exists d, n, m. simpl. split; [done|]. split; [done|].
  split; [by apply lookup_app_l_Some|].
  split; [done|by apply lookup_app_l_Some].
Qed.




Lemma frame_requested_load_column (k : nat) (s : State) (i j i' : nat)
    (c : Column) :
  frame_requested k s i' ->
  frame_requested k (load_column i j c s) i'.
Proof.
  intros Hr.
  apply (frame_requested_grow _ _ (fresh_node (col_id c))
           (column_request c (length (nodes s)))) in Hr.
  by apply (frame_requested_anchor_column _ _
              (set_col_content (Attached (length (nodes s)))) i j) in Hr.
Qed.




Lemma frame_requested_reopen_column (k : nat) (s : State) (p : nat * nat)
    (i : nat) :
  frame_requested k s i -> frame_requested k (reopen_column s p) i.
Proof.
  intros Hr. unfold reopen_column.
  destruct (column_at s p.1 p.2) as [c|] eqn:Hc; [|done].
  destruct (negb _); [|done].
  apply (frame_requested_anchor_column _ _ (set_col_anchor toggle_arrow)
           p.1 p.2) in Hr.
  destruct (_ && _); [|done]. by apply frame_requested_load_column.
Qed.





(** *** The invariant of the loops *)



























(** ** The rows of a redraw *)
















(** ** [code_exec_callback] on a descriptor list *)




(** ** Open rows across a redraw *)


Lemma column_open_coherent (s : State) (i j : nat) (c : Column) :
  coherent s = true -> column_at s i j = Some c ->
  column_open s (col_id c) = negb (hasClass "hidden" (col_row c)).
Proof.
  intros Hc Hcij. unfold column_open.
  by rewrite (row_class_column s Hc i j c Hcij).
Qed.







(** ** Widgets across a redraw *)




(** ** Clicks on the anchors *)

Lemma hasClass_removeClass (c : string) (cls : classes) :
  hasClass c (removeClass c cls) = false.
Proof.
  unfold hasClass, removeClass. induction cls as [|x cls IH]; simpl; [done|].
  destruct (String.eqb c x) eqn:Hx; simpl; [done|]. by rewrite Hx.
Qed.

Lemma hasClass_snoc (c : string) (cls : classes) :
  hasClass c (cls ++ [c]) = true.
Proof.
  unfold hasClass. rewrite existsb_app. simpl.
  by rewrite String.eqb_refl, orb_true_r.
Qed.

Lemma hasClass_toggleClass (c : string) (cls : classes) :
  hasClass c (toggleClass c cls) = negb (hasClass c cls).
Proof.
  unfold toggleClass. destruct (hasClass c cls) eqn:H; simpl.
  - apply hasClass_removeClass.
  - apply hasClass_snoc.
Qed.

Lemma coherent_toggle_column_row (s : State) (i j : nat) :
  coherent s = true ->
  coherent (alter_column (set_col_row (toggleClass "hidden")) i j s) = true.
Proof.
  intros Hc. apply coherent_alter_column; [done|done|].
  intros c Hij. by destruct (coherent_column s i j c Hc Hij).
Qed.

Lemma coherent_toggle_frame_rows (s : State) (i : nat) :
  coherent s = true ->
  coherent (alter_frame (set_frame_rows (toggleClass "hidden")) i s) = true.
Proof.
  intros Hc. apply coherent_alter_frame; [done|done|done|].
  intros d Hi. by destruct (coherent_frame s i d Hc Hi).
Qed.

(** A click on the anchor of the column at [(i, j)]: the cell toggles
    [hidden], and a request is made exactly when the panel is visible and
    the cell holds no output. *)
Lemma click_toggleColumn_at (s : State) (i j : nat) (c : Column) :
  coherent s = true -> column_at s i j = Some c ->
  exists s' c',
    click_toggleColumn i j s = Done tt s'
    /\ coherent s' = true
    /\ wrapper_visible s' = wrapper_visible s
    /\ column_at s' i j = Some c'
    /\ col_id c' = col_id c /\ col_frame c' = col_frame c
    /\ col_row c' = toggleClass "hidden" (col_row c)
    /\ if wrapper_visible s && negb (loaded_content s (col_content c))
       then col_content c' = Attached (length (nodes s))
            /\ nodes s' = nodes s ++ [fresh_node (col_id c)]
            /\ sent s' = sent s ++ [column_request c (length (nodes s))]
       else col_content c' = col_content c
            /\ nodes s' = nodes s /\ sent s' = sent s.
Proof.
  intros Hc Hij. unfold click_toggleColumn. step_m. rewrite Hij.
  set (s1 := alter_column (set_col_anchor toggle_arrow) i j
               (alter_column (set_col_row (toggleClass "hidden")) i j s)).
  set (c1 := set_col_anchor toggle_arrow
               (set_col_row (toggleClass "hidden") c)).
  assert (Hc1 : coherent s1 = true)
    by by apply coherent_toggle_column_anchor, coherent_toggle_column_row.
  assert (Hij1 : column_at s1 i j = Some c1).
  { unfold s1. rewrite !column_at_alter_column, Hij.
    by destruct (decide _) as [_|[]]. }
  pose proof (display_column_widget_at s1 i j c1 Hc1 Hij1) as Hd.
  simpl in Hd. simpl. fold s1. rewrite Hd.
  change (loaded_content s1 ?x) with (loaded_content s x).
  change (wrapper_visible s1) with (wrapper_visible s).
  destruct (wrapper_visible s && negb (loaded_content s (col_content c))) eqn:Hl.
  - exists (load_column i j c1 s1),
           (set_col_content (Attached (length (nodes s))) c1).
    split; [done|]. split; [by apply coherent_load_column|].
    split; [done|]. split; [|done].
    unfold load_column.
    change (column_at (alter_column (set_col_content (Attached (length (nodes s1)))) i j
              (set_nodes (nodes s1 ++ [fresh_node (col_id c1)]) s1)) i j = Some
              (set_col_content (Attached (length (nodes s))) c1)).
    rewrite column_at_alter_column.
    change (column_at (set_nodes ?x s1) i j) with (column_at s1 i j).
    rewrite Hij1. by destruct (decide _) as [_|[]].
  - exists s1, c1. done.
Qed.

(** The same for the anchor of the dataframe at [i]. *)
Lemma click_toggleDataframe_at (s : State) (i : nat) (d : Frame) :
  coherent s = true -> table s !! i = Some d ->
  exists s' d',
    click_toggleDataframe i s = Done tt s'
    /\ coherent s' = true
    /\ wrapper_visible s' = wrapper_visible s
    /\ table s' !! i = Some d'
    /\ frame_id d' = frame_id d
    /\ frame_row d' = toggleClass "hidden" (frame_row d)
    /\ frame_table d' = toggleClass "hidden" (frame_table d)
    /\ if wrapper_visible s && negb (loaded_content s (frame_content d))
       then frame_content d' = Attached (length (nodes s))
            /\ nodes s' = nodes s ++ [fresh_node (frame_id d)]
            /\ sent s' = sent s ++ [frame_request d (length (nodes s))]
       else frame_content d' = frame_content d
            /\ nodes s' = nodes s /\ sent s' = sent s.
Proof.
  intros Hc Hi. unfold click_toggleDataframe. step_m. rewrite Hi.
  set (s1 := alter_frame (set_frame_anchor toggle_arrow) i
               (alter_frame (set_frame_rows (toggleClass "hidden")) i s)).
  set (d1 := set_frame_anchor toggle_arrow
               (set_frame_rows (toggleClass "hidden") d)).
  assert (Hc1 : coherent s1 = true)
    by by apply coherent_toggle_frame_anchor, coherent_toggle_frame_rows.
  assert (Hi1 : table s1 !! i = Some d1).
  { unfold s1. rewrite !table_alter_frame, Hi. by destruct (decide _). }
  pose proof (display_pipeline_widget_at s1 i d1 Hc1 Hi1) as Hd.
  simpl in Hd. simpl. fold s1. rewrite Hd.
  change (loaded_content s1 ?x) with (loaded_content s x).
  change (wrapper_visible s1) with (wrapper_visible s).
  destruct (wrapper_visible s && negb (loaded_content s (frame_content d))) eqn:Hl.
  - exists (load_frame i d1 s1),
           (set_frame_content (Attached (length (nodes s))) d1).
    split; [done|]. split; [by apply coherent_load_frame|].
    split; [done|]. split; [|done].
    unfold load_frame.
    change (table (alter_frame (set_frame_content (Attached (length (nodes s1)))) i
              (set_nodes (nodes s1 ++ [fresh_node (frame_id d1)]) s1)) !! i = Some
              (set_frame_content (Attached (length (nodes s))) d1)).
    rewrite table_alter_frame.
    change (table (set_nodes ?x s1)) with (table s1).
    rewrite Hi1. by destruct (decide _).
  - exists s1, d1. done.
Qed.

(** ** One request for each widget *)

Lemma deliver_display_data (s : State) (k n : nat) (r : Request) (msg : Message) :
  sent s !! k = Some r -> req_output r = widget_output n ->
  msg_type msg = "display_data" ->
  deliver k msg s = Done tt (set_nodes (alter (add_output msg) n (nodes s)) s).
Proof.
  intros Hk Hr Hty. unfold deliver. step_m. rewrite Hk. simpl. rewrite Hr.
  rewrite display_widgets_effect, Hty. done.
Qed.

Lemma loaded_after_output (s : State) (n : nat) (nd : Node) (msg : Message) :
  nodes s !! n = Some nd ->
  loaded_content (set_nodes (alter (add_output msg) n (nodes s)) s) (Attached n)
  = true.
Proof.
  intros Hn. unfold loaded_content. simpl.
  rewrite list_lookup_alter_eq, Hn. simpl.
  apply negb_true_iff, bool_decide_eq_false. by destruct (node_outputs nd).
Qed.

Lemma column_cycle_holds (s : State) (i j : nat) (c : Column) (msg : Message) :
  coherent s = true -> wrapper_visible s = true ->
  column_at s i j = Some c ->
  hasClass "hidden" (col_row c) = true ->
  loaded_content s (col_content c) = false ->
  msg_type msg = "display_data" ->
  column_cycle s i j c msg.
Proof.
  intros Hc Hv Hij Hhid Hun Hty.
  destruct (click_toggleColumn_at s i j c Hc Hij)
    as (s1 & c1 & Hrun1 & Hc1 & Hv1 & Hij1 & Hid1 & _ & Hrow1 & Hload).
  rewrite Hv, Hun in Hload. simpl in Hload. destruct Hload as (Hco1 & Hn1 & Hs1).
  set (s2 := set_nodes (alter (add_output msg) (length (nodes s)) (nodes s1)) s1).
  assert (Hrun2 : deliver (length (sent s)) msg s1 = Done tt s2).
  { apply (deliver_display_data s1 _ _ (column_request c (length (nodes s))));
      [|done|done].
    rewrite Hs1. by apply list_lookup_middle. }
  assert (Hc2 : coherent s2 = true) by by apply coherent_add_output.
  assert (Hl2 : loaded_content s2 (col_content c1) = true).
  { rewrite Hco1. apply (loaded_after_output s1 _ (fresh_node (col_id c))).
    rewrite Hn1. by apply list_lookup_middle. }
  destruct (click_toggleColumn_at s2 i j c1 Hc2 Hij1)
    as (s3 & c3 & Hrun3 & Hc3 & Hv3 & Hij3 & Hid3 & _ & Hrow3 & Hload3).
  rewrite Hl2, andb_false_r in Hload3. destruct Hload3 as (Hco3 & Hn3 & Hs3).
  assert (Hl3 : loaded_content s3 (col_content c3) = true).
  { unfold loaded_content in *. by rewrite Hco3, Hn3. }
  destruct (click_toggleColumn_at s3 i j c3 Hc3 Hij3)
    as (s4 & c4 & Hrun4 & Hc4 & Hv4 & Hij4 & Hid4 & _ & Hrow4 & Hload4).
  rewrite Hl3, andb_false_r in Hload4. destruct Hload4 as (Hco4 & Hn4 & Hs4).
  exists s1, s2, s3, s4. repeat split; try done.
  - rewrite <- Hid1, (column_open_coherent s1 i j c1 Hc1 Hij1), Hrow1.
    by rewrite hasClass_toggleClass, Hhid.
  - rewrite <- Hid1, <- Hid3, (column_open_coherent s3 i j c3 Hc3 Hij3).
    by rewrite Hrow3, Hrow1, !hasClass_toggleClass, Hhid.
  - rewrite <- Hid1, <- Hid3, <- Hid4, (column_open_coherent s4 i j c4 Hc4 Hij4).
    by rewrite Hrow4, Hrow3, Hrow1, !hasClass_toggleClass, Hhid.
  - by rewrite Hs4, Hs3.
Qed.

Lemma frame_cycle_holds (s : State) (i : nat) (d : Frame) (msg : Message) :
  coherent s = true -> wrapper_visible s = true ->
  table s !! i = Some d ->
  hasClass "hidden" (frame_row d) = true ->
  loaded_content s (frame_content d) = false ->
  msg_type msg = "display_data" ->
  frame_cycle s i d msg.
Proof.
  intros Hc Hv Hi Hhid Hun Hty.
  destruct (click_toggleDataframe_at s i d Hc Hi)
    as (s1 & d1 & Hrun1 & Hc1 & Hv1 & Hi1 & Hid1 & Hrow1 & _ & Hload).
  rewrite Hv, Hun in Hload. simpl in Hload. destruct Hload as (Hco1 & Hn1 & Hs1).
  set (s2 := set_nodes (alter (add_output msg) (length (nodes s)) (nodes s1)) s1).
  assert (Hrun2 : deliver (length (sent s)) msg s1 = Done tt s2).
  { apply (deliver_display_data s1 _ _ (frame_request d (length (nodes s))));
      [|done|done].
    rewrite Hs1. by apply list_lookup_middle. }
  assert (Hc2 : coherent s2 = true) by by apply coherent_add_output.
  assert (Hl2 : loaded_content s2 (frame_content d1) = true).
  { rewrite Hco1. apply (loaded_after_output s1 _ (fresh_node (frame_id d))).
    rewrite Hn1. by apply list_lookup_middle. }
  destruct (click_toggleDataframe_at s2 i d1 Hc2 Hi1)
    as (s3 & d3 & Hrun3 & Hc3 & Hv3 & Hi3 & Hid3 & Hrow3 & _ & Hload3).
  rewrite Hl2, andb_false_r in Hload3. destruct Hload3 as (Hco3 & Hn3 & Hs3).
  assert (Hl3 : loaded_content s3 (frame_content d3) = true).
  { unfold loaded_content in *. by rewrite Hco3, Hn3. }
  destruct (click_toggleDataframe_at s3 i d3 Hc3 Hi3)
    as (s4 & d4 & Hrun4 & Hc4 & Hv4 & Hi4 & Hid4 & Hrow4 & _ & Hload4).
  rewrite Hl3, andb_false_r in Hload4. destruct Hload4 as (Hco4 & Hn4 & Hs4).
  exists s1, s2, s3, s4. repeat split; try done.
  - rewrite Hi1. simpl. by rewrite Hrow1, hasClass_toggleClass, Hhid.
  - rewrite Hi3. simpl.
    by rewrite Hrow3, Hrow1, !hasClass_toggleClass, Hhid.
  - rewrite Hi4. simpl.
    by rewrite Hrow4, Hrow3, Hrow1, !hasClass_toggleClass, Hhid.
  - by rewrite Hs4, Hs3.
Qed.

(** C2, as amended: a click that expands a collapsed row whose placeholder
    holds no output, on a visible panel, makes exactly one request for its
    widget; once the kernel has answered that request with a
    [display_data] message, collapsing the row and expanding it again make
    no further request.  This holds for the columns and for the
    dataframes. *)
Theorem one_request_once_loaded :
  (forall s i j c msg,
     coherent s = true -> wrapper_visible s = true ->
     column_at s i j = Some c ->
     hasClass "hidden" (col_row c) = true ->
     loaded_content s (col_content c) = false ->
     msg_type msg = "display_data" ->
     column_cycle s i j c msg)
  /\ (forall s i d msg,
        coherent s = true -> wrapper_visible s = true ->
        table s !! i = Some d ->
        hasClass "hidden" (frame_row d) = true ->
        loaded_content s (frame_content d) = false ->
        msg_type msg = "display_data" ->
        frame_cycle s i d msg).
Proof.
  split.
  - intros. by apply column_cycle_holds.
  - intros. by apply frame_cycle_holds.
Qed.

(** Without the answer of the kernel in between, each of three clicks on
    the anchor of a column makes a request: the claim "one request, then
    none" fails on the page [opened]. *)
Lemma three_clicks_three_requests : ~ three_clicks_one_request opened 0 0.
Proof.
  intros H.
  destruct (H (after (click_toggleColumn 0 0) opened)
              (after (click_toggleColumn 0 0;; click_toggleColumn 0 0) opened)
              (after (click_toggleColumn 0 0;; click_toggleColumn 0 0;;
                      click_toggleColumn 0 0) opened))
    as [_ Hsent]; [vm_compute; reflexivity..|].
  vm_compute in Hsent. discriminate.
Qed.

Lemma one_request_once_loaded_witness :
  column_cycle opened 0 0 first_column display_data_msg
  /\ frame_cycle opened 0 first_frame display_data_msg.
Proof.
  split.
  - apply (proj1 one_request_once_loaded opened 0 0 first_column
             display_data_msg); vm_compute; reflexivity.
  - apply (proj2 one_request_once_loaded opened 0 first_frame
             display_data_msg); vm_compute; reflexivity.
Defined.


(** ** Replies that are not descriptor lists *)



(** C4, as amended: a stream reply whose text is undefined makes
    [code_exec_callback] run [datacleaner_init] again: the creation snippet
    of the remote object is sent once more, the callbacks of the
    configuration and of a new poll are deferred (the poll is sent when
    its callback runs), nothing is redrawn (table, badge and
    [n_dataframes] are as before) and no exception is thrown. *)
Theorem undefined_text_reinitialises (s : State) (msg : Message) :
  msg_type msg = "stream" -> msg_text msg = None ->
  exists s' s'',
    code_exec_callback msg s = Done tt s'
    /\ sent s' = sent s ++ [create_request]
    /\ tasks s' = tasks s ++ [ConfigLoaded; RefreshLoaded; SorterLoaded]
    /\ table s' = table s /\ badge s' = badge s
    /\ n_dataframes s' = n_dataframes s
    /\ run_task (S (length (tasks s))) s' = Done tt s''
    /\ sent s'' = sent s ++ [create_request; poll_request].
Proof.
  intros Hty Htx. unfold code_exec_callback. rewrite Hty, Htx. simpl.
  unfold datacleaner_init, read_config, data_cleaner, varRefresh.
  step_m. simpl. eexists _, _. split; [reflexivity|]. simpl.
  split; [done|]. split; [by rewrite <- !(assoc_L (++))|].
  split; [done|]. split; [done|]. split; [done|].
  unfold run_task. step_m. simpl.
  replace (((tasks s ++ [ConfigLoaded]) ++ [RefreshLoaded]) ++ [SorterLoaded])
    with ((tasks s ++ [ConfigLoaded]) ++ RefreshLoaded :: [SorterLoaded])
    by by rewrite <- !(assoc_L (++)).
  replace (S (length (tasks s))) with (length (tasks s ++ [ConfigLoaded]))
    by (rewrite length_app; simpl; lia).
  rewrite list_lookup_middle by done. simpl.
  split; [reflexivity|]. simpl. by rewrite <- !(assoc_L (++)).
Qed.

Lemma undefined_text_reinitialises_witness :
  exists s' s'',
    code_exec_callback (stream_msg None) opened = Done tt s'
    /\ sent s' = sent opened ++ [create_request]
    /\ tasks s' = tasks opened ++ [ConfigLoaded; RefreshLoaded; SorterLoaded]
    /\ table s' = table opened /\ badge s' = badge opened
    /\ n_dataframes s' = n_dataframes opened
    /\ run_task (S (length (tasks opened))) s' = Done tt s''
    /\ sent s'' = sent opened ++ [create_request; poll_request].
Proof.
  apply (undefined_text_reinitialises opened (stream_msg None)); reflexivity.
Defined.

(** An empty text is not treated as an empty list: [JSON.parse] throws a
    [SyntaxError] out of [code_exec_callback], and the page is left as it
    was, without a new creation snippet. *)
Lemma empty_text_throws :
  code_exec_callback (stream_msg (Some "")) opened
  = Thrown JS.SyntaxError opened.
Proof. vm_compute. reflexivity. Qed.

(** ** Exceptions *)




(** ** The reply to a poll *)





(** ** Rules for pre- and postconditions *)

Lemma triple_bind {A B} (P : State -> Prop) (m : M A) (k : A -> M B)
    (Q : A -> State -> Prop) (R : B -> State -> Prop)
    (E : JS.error -> State -> Prop) :
  triple P m Q E -> (forall a, triple (Q a) (k a) R E) ->
  triple P (m ≫= k) R E.
Proof.
  intros Hm Hk s Hs. specialize (Hm s Hs).
  unfold mbind, M_bind. destruct (m s) as [a s'| |]; [|done..].
  by apply Hk.
Qed.

Lemma triple_weaken {A} (P P' : State -> Prop) (m : M A)
    (Q Q' : A -> State -> Prop) (E E' : JS.error -> State -> Prop) :
  triple P m Q E ->
  (forall s, P' s -> P s) -> (forall a s, Q a s -> Q' a s) ->
  (forall e s, E e s -> E' e s) ->
  triple P' m Q' E'.
Proof.
  intros Hm HP HQ HE s Hs. specialize (Hm s (HP s Hs)).
  destruct (m s); auto.
Qed.

Lemma triple_get_bind {B} (P : State -> Prop) (k : State -> M B)
    (R : B -> State -> Prop) (E : JS.error -> State -> Prop) :
  (forall s0, P s0 -> triple (eq s0) (k s0) R E) ->
  triple P (get ≫= k) R E.
Proof. intros Hk s Hs. by apply (Hk s Hs). Qed.

Lemma triple_modify (P : State -> Prop) (f : State -> State)
    (Q : unit -> State -> Prop) (E : JS.error -> State -> Prop) :
  (forall s, P s -> Q tt (f s)) -> triple P (modify f) Q E.
Proof. intros H s Hs. by apply H. Qed.

Lemma keeps_ret {A} (P : State -> Prop) (a : A) : keeps P (mret a).
Proof. by intros s Hs. Qed.

Lemma keeps_skip (P : State -> Prop) : keeps P skip.
Proof. by intros s Hs. Qed.

Lemma keeps_bind {A B} (P : State -> Prop) (m : M A) (k : A -> M B) :
  keeps P m -> (forall a, keeps P (k a)) -> keeps P (m ≫= k).
Proof. intros Hm Hk. by apply (triple_bind P m k (fun _ => P)). Qed.

Lemma keeps_get_bind {B} (P : State -> Prop) (k : State -> M B) :
  (forall s0, P s0 -> triple (eq s0) (k s0) (fun _ => P) (fun _ => P)) ->
  keeps P (get ≫= k).
Proof. intros H. by apply (triple_get_bind P k (fun _ => P)). Qed.

Lemma keeps_at {A} (P : State -> Prop) (m : M A) (s0 : State) :
  keeps P m -> P s0 -> triple (eq s0) m (fun _ => P) (fun _ => P).
Proof. intros Hm H0 s <-. by apply Hm. Qed.

Lemma keeps_modify (P : State -> Prop) (f : State -> State) :
  (forall s, P s -> P (f s)) -> keeps P (modify f).
Proof. intros H. by apply (triple_modify P f (fun _ => P)). Qed.

Lemma keeps_throw {A} (P : State -> Prop) (e : JS.error) :
  keeps P (throw (A:=A) e).
Proof. by intros s Hs. Qed.

Lemma keeps_beyond {A} (P : State -> Prop) : keeps P (beyond (A:=A)).
Proof. by intros s Hs. Qed.

Lemma keeps_lift {A} (P : State -> Prop) (r : JS.result A) : keeps P (lift r).
Proof. intros s Hs. unfold lift. by destruct r. Qed.


Lemma keeps_for_each {A} (P : State -> Prop) (f : A -> M unit) (l : list A) :
  (forall x, keeps P (f x)) -> keeps P (for_each f l).
Proof.
  intros Hf. induction l as [|x l IH]; simpl; [apply keeps_skip|].
  apply keeps_bind; [apply Hf | by intros _].
Qed.


(** A handler that ends in [s'] from a state with [P] ends with [P]. *)
Lemma keeps_ends (P : State -> Prop) (m : M unit) (s s' : State) :
  keeps P m -> P s -> ends m s s' -> P s'.
Proof.
  intros Hm Hs [H|[e H]]; specialize (Hm s Hs); by rewrite H in Hm.
Qed.

(** *** What [html_table] leaves alone *)


Lemma reads_keeps {A} (P : State -> Prop) (m : M A) : reads m -> keeps P m.
Proof.
  intros Hm s Hs. specialize (Hm s s eq_refl).
  destruct (m s); by subst.
Qed.

Lemma reads_ret {A} (a : A) : reads (mret a).
Proof. by intros s ? <-. Qed.

Lemma reads_bind {A B} (m : M A) (k : A -> M B) :
  reads m -> (forall a, reads (k a)) -> reads (m ≫= k).
Proof.
  intros Hm Hk s.
  apply (triple_bind _ m k (fun _ => eq s)); [apply Hm | intros a; apply Hk].
Qed.

Lemma reads_lift {A} (r : JS.result A) : reads (lift r).
Proof. intros s ? <-. unfold lift. by destruct r. Qed.

Lemma reads_in_model {A} (f : State -> option A) : reads (in_model f).
Proof. intros s ? <-. unfold in_model. by destruct (f s). Qed.

Lemma reads_map_each {A B} (f : A -> M B) (l : list A) :
  (forall x, reads (f x)) -> reads (map_each f l).
Proof.
  intros Hf. induction l as [|x l IH]; simpl; [apply reads_ret|].
  apply reads_bind; [apply Hf | intros y].
  apply reads_bind; [apply IH | intros ys]. apply reads_ret.
Qed.

Lemma reads_html_column (dfId : string) (col : JS.value) :
  reads (html_column dfId col).
Proof.
  unfold html_column, read_id, read, placeholder_class.
  repeat (apply reads_bind; [first [apply reads_lift | apply reads_in_model]
                            | intros ?]).
  apply reads_ret.
Qed.

Lemma reads_html_frame (df : JS.value) : reads (html_frame df).
Proof.
  unfold html_frame, read_id, read, placeholder_class, table_cell_class.
  do 7 (apply reads_bind; [first [apply reads_lift | apply reads_in_model]
                          | intros ?]).
  apply reads_bind; [apply reads_lift | intros [n cols]].
  apply reads_bind; [apply reads_map_each, reads_html_column | intros ?].
  apply reads_ret.
Qed.

(** *** Properties kept by the loaders *)

Section Loaders.
Variable P : State -> Prop.
Hypothesis P_alter : forall f i s, P s -> P (alter_frame f i s).
Hypothesis P_node : forall nd s, P s -> P (set_nodes (nodes s ++ [nd]) s).
Hypothesis P_sent : forall r s, P s -> P (set_sent (sent s ++ [r]) s).






End Loaders.

(** *** Properties kept by the handlers *)

Section Kept.
Variable P : State -> Prop.
Hypothesis P_table : forall t s, P s -> P (set_table t s).
Hypothesis P_alter : forall f i s, P s -> P (alter_frame f i s).
Hypothesis P_n_dataframes : forall n s, P s -> P (set_n_dataframes n s).
Hypothesis P_badge : forall b s, P s -> P (set_badge b s).
Hypothesis P_console : forall c s, P s -> P (set_console c s).
Hypothesis P_tasks : forall t s, P s -> P (set_tasks t s).
Hypothesis P_refresh : forall n s, P s -> P (set_refresh_handlers n s).
Hypothesis P_config : forall s, P s -> P (set_config_loaded s).
Hypothesis P_cfg : forall w s, P s -> P (set_metadata MetaCfg w s).
Hypothesis P_output : forall msg n s,
  P s -> P (set_nodes (alter (add_output msg) n (nodes s)) s).
Hypothesis P_plain : forall r s,
  is_widget_request r = false -> P s -> P (set_sent (sent s ++ [r]) s).
Hypothesis P_column_loader : forall a b, keeps P (display_column_widget a b).
Hypothesis P_frame_loader : forall a, keeps P (display_pipeline_widget a).

Lemma keeps_defer (t : Task) : keeps P (defer t).
Proof. apply keeps_modify. intros s Hs. by apply P_tasks. Qed.

Lemma keeps_warn_error (msg : Message) : keeps P (warn_error msg).
Proof.
  unfold warn_error, console_warn.
  apply keeps_bind; [|intros _]; apply keeps_modify; intros s Hs;
    by apply P_console.
Qed.

Lemma keeps_html_table (text : string) : keeps P (html_table text).
Proof.
  unfold html_table.
  apply keeps_bind; [apply keeps_lift | intros dfList].
  apply keeps_bind; [apply keeps_lift | intros [n items]].
  apply keeps_bind; [apply keeps_modify; intros s Hs; by apply P_n_dataframes
                    | intros _].
  apply reads_keeps, reads_map_each, reads_html_frame.
Qed.

Lemma keeps_update_badge : keeps P update_badge.
Proof.
  unfold update_badge. apply keeps_get_bind. intros s0 H0.
  apply keeps_at; [|done].
  assert (Hh : forall h, keeps P (badge_set_hidden h)).
  { intros h. apply keeps_modify. intros s Hs. by apply P_badge. }
  destruct (n_dataframes s0) as [[|n]|]; try apply Hh.
  apply keeps_bind; [|intros _; apply Hh].
  unfold iosbadge_content. apply keeps_get_bind. intros s1 H1.
  apply keeps_at; [|done].
  destruct (badge s1); [|apply keeps_throw].
  apply keeps_modify. intros s Hs. by apply P_badge.
Qed.

Lemma keeps_redisplay_column (p : nat * nat) : keeps P (redisplay_column p).
Proof.
  unfold redisplay_column. apply keeps_get_bind. intros s0 H0.
  apply keeps_at; [|done].
  destruct (column_at s0 p.1 p.2) as [c|]; [|apply keeps_skip].
  destruct (negb (hasClass "hidden" (col_row c))); [|apply keeps_skip].
  apply keeps_bind; [|intros _; apply P_column_loader].
  apply keeps_modify. intros s Hs. by apply P_alter.
Qed.

Lemma keeps_redisplay_frame (i : nat) : keeps P (redisplay_frame i).
Proof.
  unfold redisplay_frame. apply keeps_get_bind. intros s0 H0.
  apply keeps_at; [|done].
  destruct (table s0 !! i) as [d|]; [|apply keeps_skip].
  destruct (negb _); [|apply keeps_skip].
  apply keeps_bind; [|intros _; apply P_frame_loader].
  apply keeps_modify. intros s Hs. by apply P_alter.
Qed.

Lemma keeps_redisplay : keeps P redisplay.
Proof.
  unfold redisplay. apply keeps_get_bind. intros s0 H0.
  apply keeps_at; [|done].
  destruct (anchors_only (table s0)); [|apply keeps_beyond].
  apply keeps_bind; [|intros _];
    apply keeps_for_each; intros x;
    [apply keeps_redisplay_column | apply keeps_redisplay_frame].
Qed.

Lemma keeps_varRefresh : keeps P varRefresh.
Proof. apply keeps_defer. Qed.

Lemma keeps_datacleaner_init : keeps P datacleaner_init.
Proof.
  unfold datacleaner_init, read_config, data_cleaner, varRefresh.
  apply keeps_bind; [apply keeps_defer | intros _].
  apply keeps_bind; [apply keeps_defer | intros _].
  apply keeps_bind; [|intros _].
  - apply keeps_modify. intros s Hs. by apply P_plain.
  - apply keeps_modify. intros s Hs. by apply P_refresh.
Qed.

Lemma keeps_code_exec_callback (msg : Message) :
  keeps P (code_exec_callback msg).
Proof.
  unfold code_exec_callback.
  apply keeps_bind; [|intros _].
  - destruct (String.eqb (msg_type msg) "stream"); [|apply keeps_skip].
    apply keeps_bind; [|intros _; apply keeps_defer].
    destruct (msg_text msg) as [text|]; [|apply keeps_datacleaner_init].
    apply keeps_bind; [apply keeps_html_table | intros rows].
    apply keeps_bind; [|intros _].
    { apply keeps_modify. intros s Hs. by apply P_table. }
    apply keeps_bind; [apply keeps_update_badge | intros _].
    apply keeps_redisplay.
  - destruct (String.eqb (msg_type msg) "error");
      [apply keeps_warn_error | apply keeps_skip].
Qed.

Lemma keeps_display_widgets (msg : Message) (wrapper : nat) :
  keeps P (display_widgets msg wrapper).
Proof.
  unfold display_widgets.
  apply keeps_bind; [|intros _].
  - destruct (String.eqb (msg_type msg) "display_data"); [|apply keeps_skip].
    apply keeps_modify. intros s Hs. by apply P_output.
  - destruct (String.eqb (msg_type msg) "error");
      [apply keeps_warn_error | apply keeps_skip].
Qed.

Lemma keeps_deliver (k : nat) (msg : Message) : keeps P (deliver k msg).
Proof.
  unfold deliver. apply keeps_get_bind. intros s0 H0.
  apply keeps_at; [|done].
  destruct (req_output <$> sent s0 !! k) as [[| |]|];
    [apply keeps_code_exec_callback | apply keeps_display_widgets
    | apply keeps_skip..].
Qed.

Lemma keeps_click_toggleColumn (i j : nat) : keeps P (click_toggleColumn i j).
Proof.
  unfold click_toggleColumn. apply keeps_get_bind. intros s0 H0.
  apply keeps_at; [|done].
  destruct (column_at s0 i j) as [c|]; [|apply keeps_skip].
  apply keeps_bind; [|intros _].
  { apply keeps_modify. intros s Hs. by apply P_alter. }
  apply keeps_bind; [|intros _; apply P_column_loader].
  apply keeps_modify. intros s Hs. by apply P_alter.
Qed.

Lemma keeps_click_toggleDataframe (i : nat) :
  keeps P (click_toggleDataframe i).
Proof.
  unfold click_toggleDataframe. apply keeps_get_bind. intros s0 H0.
  apply keeps_at; [|done].
  destruct (table s0 !! i) as [d|]; [|apply keeps_skip].
  apply keeps_bind; [|intros _].
  { apply keeps_modify. intros s Hs. by apply P_alter. }
  apply keeps_bind; [|intros _; apply P_frame_loader].
  apply keeps_modify. intros s Hs. by apply P_alter.
Qed.

Lemma keeps_cell_executed : keeps P cell_executed.
Proof.
  unfold cell_executed. apply keeps_get_bind. intros s0 H0.
  apply keeps_at; [|done].
  apply keeps_for_each. intros _. apply keeps_varRefresh.
Qed.

Lemma keeps_config_loaded_callback : keeps P config_loaded_callback.
Proof.
  unfold config_loaded_callback. apply keeps_get_bind. intros s0 H0.
  apply keeps_at; [|done].
  apply keeps_bind; [|intros _].
  { apply keeps_modify. intros s Hs. by apply P_cfg. }
  apply keeps_bind; [apply keeps_defer | intros _].
  apply keeps_modify. intros s Hs. by apply P_config.
Qed.

(** Every deferred callback but the end of a toggle. *)
Lemma keeps_run (t : Task) : t <> ToggleDone -> keeps P (run t).
Proof.
  destruct t; simpl; intros Ht; try done.
  - apply keeps_config_loaded_callback.
  - apply keeps_modify. intros s Hs. by apply P_badge.
  - apply keeps_modify. intros s Hs. by apply P_plain.
  - apply keeps_skip.
Qed.

(** Every event but a deferred callback. *)
Lemma keeps_handle (e : Event) :
  (forall i, e <> Callback i) -> keeps P (handle e).
Proof.
  destruct e; simpl; intros He.
  - apply keeps_defer.
  - apply keeps_click_toggleColumn.
  - apply keeps_click_toggleDataframe.
  - apply keeps_varRefresh.
  - apply keeps_cell_executed.
  - apply keeps_datacleaner_init.
  - by destruct (He i).
  - apply keeps_deliver.
Qed.


End Kept.


(** ** The metadata of the extension *)





(** X2: before the metadata of the extension exist, the [complete] callback
    of a toggle fails at the write of the flag: the wrapper has changed
    its display, and nothing else has happened (no flag, no dirty mark,
    no poll). *)
Theorem toggle_fails_before_configuration (s : State) :
  metadata s = MetaUndefined ->
  exists s1,
    toggledatacleaner s = Done tt s1
    /\ run_task (length (tasks s)) s1
       = Thrown JS.TypeError
           (set_wrapper_visible (negb (wrapper_visible s)) s).
Proof.
  intros Hm. eexists. split; [reflexivity|].
  rewrite (run_task_at_end _ (tasks s) ToggleDone) by done.
  unfold run, toggle_complete. step_m. simpl. rewrite Hm.
  by destruct s.
Qed.

Lemma toggle_fails_before_configuration_witness :
  metadata loaded = MetaUndefined
  /\ exists s1,
    toggledatacleaner loaded = Done tt s1
    /\ run_task (length (tasks loaded)) s1
       = Thrown JS.TypeError
           (set_wrapper_visible (negb (wrapper_visible loaded)) loaded).
Proof.
  split; [reflexivity|].
  apply (toggle_fails_before_configuration loaded). reflexivity.
Defined.

(** X3: a flag written by a toggle and a later callback of [read_config] (a
    new initialisation): when the metadata are the object [cfg], which
    they are from the first callback on, [$.extend] first copies the flag
    of the system configuration into that object, so the written flag
    survives only if the system configuration has none; metadata of the
    notebook file keep the written flag. *)
Theorem reconfiguration_and_the_flag (s : State) :
  metadata s <> MetaUndefined ->
  exists s1 s2 s3,
    toggledatacleaner s = Done tt s1
    /\ run_task (length (tasks s)) s1 = Done tt s2
    /\ metadata_window_display s2 = Some (negb (wrapper_visible s))
    /\ config_loaded_callback s2 = Done tt s3
    /\ metadata s3 = MetaCfg
    /\ wrapper_visible s3 = negb (wrapper_visible s)
    /\ metadata_window_display s3
       = Some (match metadata s, sys_window_display s with
               | MetaCfg, Some b => b
               | _, _ => negb (wrapper_visible s)
               end).
Proof.
  intros Hm. destruct (toggle_cycle s Hm) as (H1 & H2 & _).
  eexists _, _, _. split; [exact H1|]. split; [exact H2|].
  refine (conj _ (conj eq_refl _)); clear H1 H2;
    unfold flagged, metadata_window_display;
    destruct s as [vis tb ns bd nd se co me cw sw di cl rh ta]; simpl in *;
    destruct me as [|[[|]|]|]; try done; destruct sw as [[|]|]; destruct vis;
    repeat split.
Qed.

Lemma reconfiguration_and_the_flag_witness :
  metadata opened <> MetaUndefined
  /\ exists s1 s2 s3,
    toggledatacleaner opened = Done tt s1
    /\ run_task (length (tasks opened)) s1 = Done tt s2
    /\ metadata_window_display s2 = Some (negb (wrapper_visible opened))
    /\ config_loaded_callback s2 = Done tt s3
    /\ metadata s3 = MetaCfg
    /\ wrapper_visible s3 = negb (wrapper_visible opened)
    /\ metadata_window_display s3
       = Some (match metadata opened, sys_window_display opened with
               | MetaCfg, Some b => b
               | _, _ => negb (wrapper_visible opened)
               end).
Proof.
  split; [vm_compute; discriminate|].
  apply (reconfiguration_and_the_flag opened). vm_compute. discriminate.
Defined.

(** ** Initialisations and polls *)

Lemma initialised_S (k : nat) (s : State) :
  initialised (S k) s = (initialised k;; datacleaner_init) s.
Proof.
  unfold initialised. rewrite seq_S. generalize (seq 0 k) as l.
  intros l. revert s. induction l as [|x l IH]; intros s; simpl.
  - unfold datacleaner_init. step_m. reflexivity.
  - unfold mbind, M_bind in *. by destruct (datacleaner_init s).
Qed.

Lemma cell_executed_tasks (s : State) :
  cell_executed s
  = Done tt (set_tasks (tasks s ++ replicate (refresh_handlers s) RefreshLoaded) s).
Proof.
  assert (H : forall n k s0,
    for_each (fun _ : nat => varRefresh) (seq k n) s0
    = Done tt (set_tasks (tasks s0 ++ replicate n RefreshLoaded) s0)).
  { induction n as [|n IH]; intros k s0.
    - simpl. rewrite (right_id_L [] (++)). by destruct s0.
    - change (for_each (fun _ : nat => varRefresh) (seq k (S n)) s0)
        with (for_each (fun _ : nat => varRefresh) (seq (S k) n)
                (set_tasks (tasks s0 ++ [RefreshLoaded]) s0)).
      rewrite IH. simpl. rewrite <- (assoc_L (++)). by destruct s0. }
  exact (H (refresh_handlers s) 0 s).
Qed.

(** X4: every call of [datacleaner_init] registers [varRefresh] once more on
    [execute.CodeCell]: after [k] further initialisations (a kernel that
    became ready again, a poll reply without text), each executed cell
    makes [k] more polls than before.  Each initialisation also sends the
    creation snippet again. *)
Theorem polls_grow_with_initialisations (k : nat) (s : State) :
  exists s1 s2,
    initialised k s = Done tt s1
    /\ sent s1 = sent s ++ replicate k create_request
    /\ refresh_handlers s1 = refresh_handlers s + k
    /\ cell_executed s1 = Done tt s2
    /\ tasks s2
       = tasks s1 ++ replicate (refresh_handlers s + k) RefreshLoaded
    /\ sent s2 = sent s1.
Proof.
  assert (H : exists s1, initialised k s = Done tt s1
              /\ sent s1 = sent s ++ replicate k create_request
              /\ refresh_handlers s1 = refresh_handlers s + k).
  { induction k as [|k (s1 & H1 & Hsent & Hn)].
    - exists s. simpl. by rewrite (right_id_L [] (++)), Nat.add_0_r.
    - rewrite initialised_S. unfold mbind, M_bind. rewrite H1.
      eexists. split; [reflexivity|]. simpl. rewrite Hsent, Hn. split.
      + rewrite <- (assoc_L (++)). f_equal.
        change (replicate k create_request ++ [create_request]
                = replicate (S k) create_request).
        by rewrite replicate_S_end.
      + lia. }
  destruct H as (s1 & H1 & Hsent & Hn).
  eexists s1, _. split; [exact H1|]. split; [exact Hsent|]. split; [exact Hn|].
  rewrite cell_executed_tasks. split; [reflexivity|]. simpl. by rewrite Hn.
Qed.

(** ** A hidden panel *)

Lemma widget_requests_plain (r : Request) (s : State) :
  is_widget_request r = false ->
  widget_requests (set_sent (sent s ++ [r]) s) = widget_requests s.
Proof.
  intros Hr. unfold widget_requests. simpl.
  rewrite List.filter_app. simpl. rewrite Hr. by rewrite (right_id_L [] (++)).
Qed.

Lemma hidden_kept (W : list Request) (N : nat) (e : Event) :
  (forall i, e <> Callback i) ->
  keeps (fun s => wrapper_visible s = false
                  /\ widget_requests s = W /\ length (nodes s) = N)
        (handle e).
Proof.
  apply keeps_handle; try done.
  - intros msg n s (? & ? & <-). repeat split; try done.
    simpl. by rewrite length_alter.
  - intros r s Hr (? & <- & ?). repeat split; try done.
    by apply widget_requests_plain.
  - intros a b s (Hv & ? & ?).
    unfold display_column_widget. step_m. by rewrite Hv.
  - intros a s (Hv & ? & ?).
    unfold display_pipeline_widget. step_m. by rewrite Hv.
Qed.

Lemma hidden_kept_run (W : list Request) (N : nat) (t : Task) :
  t <> ToggleDone ->
  keeps (fun s => wrapper_visible s = false
                  /\ widget_requests s = W /\ length (nodes s) = N)
        (run t).
Proof.
  apply keeps_run; try done.
  intros r s Hr (? & <- & ?). repeat split; try done.
  by apply widget_requests_plain.
Qed.

Lemma run_task_unfold (i : nat) (s : State) :
  run_task i s =
  match tasks s !! i with
  | Some t => run t (set_tasks (delete i (tasks s)) s)
  | None => Done tt s
  end.
Proof. unfold run_task. step_m. by destruct (tasks s !! i). Qed.

Lemma toggle_complete_keeps (P : State -> Prop) :
  (forall b s, P s -> P (set_wrapper_visible b s)) ->
  (forall m w s, P s -> P (set_metadata m w s)) ->
  (forall s, P s -> P (set_dirty s)) ->
  (forall t s, P s -> P (set_tasks t s)) ->
  keeps P toggle_complete.
Proof.
  intros Hv Hm Hd Ht.
  unfold toggle_complete, data_cleaner, varRefresh.
  apply keeps_bind; [apply keeps_modify; auto | intros _].
  apply keeps_get_bind. intros s0 H0. apply keeps_at; [|done].
  apply keeps_bind; [|intros _].
  { destruct (metadata s0); [apply keeps_throw|apply keeps_modify; auto..]. }
  apply keeps_bind; [apply keeps_modify; auto | intros _].
  apply keeps_modify; auto.
Qed.

(** X5: while the panel is hidden, nothing that the user or the kernel does
    makes the script ask for a widget or make a wrapper: whatever the
    event, and whether its handler returns or throws, the requests for
    widgets are those made before, and so is the number of wrappers. *)
Theorem nothing_loaded_while_hidden (e : Event) (s s' : State) :
  wrapper_visible s = false -> ends (handle e) s s' ->
  widget_requests s' = widget_requests s
  /\ length (nodes s') = length (nodes s).
Proof.
  intros Hv Hends.
  set (P := fun s0 : State =>
              wrapper_visible s0 = false
              /\ widget_requests s0 = widget_requests s
              /\ length (nodes s0) = length (nodes s)).
  set (P' := fun s0 : State =>
               widget_requests s0 = widget_requests s
               /\ length (nodes s0) = length (nodes s)).
  assert (He : (exists i, e = Callback i) \/ forall i, e <> Callback i)
    by (destruct e; eauto).
  destruct He as [[i ->]|He].
  - simpl in Hends. unfold ends in Hends. rewrite run_task_unfold in Hends.
    destruct (tasks s !! i) as [t|] eqn:Ht.
    + destruct t.
      4: { (* the end of a toggle: the panel is shown and a poll deferred *)
           apply (keeps_ends P' toggle_complete
                    (set_tasks (delete i (tasks s)) s) s'); try done.
           by apply toggle_complete_keeps. }
      all: assert (HP : P (set_tasks (delete i (tasks s)) s)) by done.
      all: match type of Hends with
           | context [run ?t _] =>
               assert (Hne : t <> ToggleDone) by done;
               by destruct (keeps_ends P _ _ s' (hidden_kept_run _ _ t Hne)
                              HP Hends) as (_ & ? & ?)
           end.
    + destruct Hends as [H|[err H]]; [|done]. by injection H as <-.
  - assert (HP : P s) by done.
    by destruct (keeps_ends _ _ _ _ (hidden_kept _ _ e He) HP Hends)
      as (_ & ? & ?).
Qed.

Lemma nothing_loaded_while_hidden_witness :
  wrapper_visible folded = false
  /\ ends (handle (Reply 1 (stream_msg (Some one_frame_text)))) folded
          (after (deliver 1 (stream_msg (Some one_frame_text))) folded)
  /\ widget_requests
       (after (deliver 1 (stream_msg (Some one_frame_text))) folded)
     = widget_requests folded
  /\ length (nodes (after (deliver 1 (stream_msg (Some one_frame_text))) folded))
     = length (nodes folded).
Proof.
  assert (Hends : ends (handle (Reply 1 (stream_msg (Some one_frame_text))))
                    folded
                    (after (deliver 1 (stream_msg (Some one_frame_text))) folded))
    by (left; vm_compute; reflexivity).
  split; [reflexivity|]. split; [exact Hends|].
  exact (nothing_loaded_while_hidden _ folded _ eq_refl Hends).
Defined.

(** ** Exceptions *)


Lemma raises_weaken {A} (E E' : JS.error -> State -> Prop) (m : M A) :
  raises E m -> (forall e s, E e s -> E' e s) -> raises E' m.
Proof. intros Hm HE. by apply (triple_weaken _ _ m _ _ E E' Hm). Qed.












(** *** The handlers that never throw *)













(** *** The exceptions of a redraw *)















(** ** The display of the panel *)





(** ** Replies on particular pages *)










Lemma array_like_lengthless (v : JS.value) :
  lengthless v = true -> JS.array_like v = JS.Val (None, []).
Proof.
  destruct v; simpl; try done.
  intros H%bool_decide_eq_true. by rewrite H.
Qed.

(** X10: a reply that is a number, a boolean or an object without [length]:
    [dfList.length] is undefined, the loop runs no turn, and the script
    draws an empty table and hides the badge, as for an empty list; the
    variable [n_dataframes] is left undefined. *)
Theorem reply_without_length (s : State) (msg : Message) (text : string)
    (v : JS.value) :
  msg_type msg = "stream" -> msg_text msg = Some text ->
  JS.JSON_parse text = JS.Val v -> lengthless v = true ->
  code_exec_callback msg s
  = Done tt (sorter_deferred
               (set_badge (badge_after 0 <$> badge s)
                  (set_table [] (set_n_dataframes None s)))).
Proof.
  intros Hty Htx Hp Hv.
  unfold code_exec_callback. rewrite Hty, Htx. simpl.
  unfold html_table. step_m.
  rewrite Hp, (array_like_lengthless v Hv). simpl.
  unfold update_badge, badge_set_hidden, redisplay. step_m. simpl.
  by destruct (badge s).
Qed.

Lemma reply_without_length_witness :
  code_exec_callback (stream_msg (Some "{}")) browsing
  = Done tt (sorter_deferred
               (set_badge (badge_after 0 <$> badge browsing)
                  (set_table [] (set_n_dataframes None browsing)))).
Proof.
  apply (reply_without_length browsing _ "{}" (JS.VObj [])); reflexivity.
Defined.

(** X11: a list whose first descriptor has no [dfCols]: the name, the shape
    and the classes of the row are read, then [dfList[i].dfCols.length]
    throws a [TypeError].  Nothing is drawn; the variable [n_dataframes]
    already holds the length of the list. *)
Theorem descriptor_without_columns (s : State) (msg : Message)
    (text id : string) (props : list (string * JS.value))
    (items : list JS.value) :
  msg_type msg = "stream" -> msg_text msg = Some text ->
  JS.JSON_parse text = JS.Val (JS.VArr (JS.VObj props :: items)) ->
  JS.last_binding "dfCols" props = None ->
  JS.to_string (field "dfId" props) = JS.Val id ->
  is_Some (row_class s (id +:+ "_row")) ->
  is_Some (table_class s ("table_" +:+ id)) ->
  code_exec_callback msg s
  = Thrown JS.TypeError (set_n_dataframes (Some (S (length items))) s).
Proof.
  intros Hty Htx Hp Hcols Hid [row Hrow] [sub Hsub].
  unfold code_exec_callback. rewrite Hty, Htx. simpl.
  unfold html_table. step_m. rewrite Hp. simpl.
  unfold html_frame, read_id, read, placeholder_class, table_cell_class.
  step_m. simpl. unfold field in Hid.
  unfold mbind, JS.result_bind, JS.rbind. rewrite Hid.
  assert (Hrow' : row_class (set_n_dataframes (Some (S (length items))) s)
                    (id +:+ "_row") = Some row) by exact Hrow.
  assert (Hsub' : table_class (set_n_dataframes (Some (S (length items))) s)
                    ("table_" +:+ id) = Some sub) by exact Hsub.
  by rewrite Hrow', Hsub', Hcols.
Qed.

Lemma descriptor_without_columns_witness :
  code_exec_callback (stream_msg (Some (quoted "[{'dfId': 7, 'dfName': 'df'}]")))
    opened
  = Thrown JS.TypeError (set_n_dataframes (Some 1) opened).
Proof.
  apply (descriptor_without_columns opened
           (stream_msg (Some (quoted "[{'dfId': 7, 'dfName': 'df'}]")))
           (quoted "[{'dfId': 7, 'dfName': 'df'}]") "7"
           [("dfId", JS.VNum 7); ("dfName", JS.VStr "df")] []);
    try reflexivity; vm_compute; eauto.
Defined.

(** X12: a list that arrives before the badge plugin has been loaded: the new
    rows are put into the panel, then the call of [iosbadge] throws a
    [TypeError]; the open rows are not redisplayed, so nothing is asked
    from the kernel, and the sorter is not scheduled. *)
Theorem reply_before_the_badge (s : State) (msg : Message) (text : string)
    (D : list DataframeDescriptor) (rows : list Frame) :
  msg_type msg = "stream" -> msg_text msg = Some text ->
  denotes text D -> rows_of s D = Some rows ->
  D <> [] -> badge s = None ->
  code_exec_callback msg s
  = Thrown JS.TypeError
      (set_table rows (set_n_dataframes (Some (length D)) s)).
Proof.
  intros Hty Htx Hden Hrows Hne Hb.
  unfold code_exec_callback. rewrite Hty, Htx. simpl.
  unfold mbind, M_bind at 1 2 3 4 5.
  rewrite (html_table_of text D s Hden), Hrows.
  unfold modify at 1. unfold update_badge, iosbadge_content. step_m. simpl.
  destruct D as [|d D]; [done|]. simpl. by rewrite Hb.
Qed.

Lemma reply_before_the_badge_witness :
  code_exec_callback (stream_msg (Some one_frame_text)) loaded
  = Thrown JS.TypeError
      (set_table (collapsed_frame <$> one_frame)
         (set_n_dataframes (Some (length one_frame)) loaded)).
Proof.
  apply (reply_before_the_badge loaded _ one_frame_text one_frame);
    try reflexivity; try done.
  eexists. split; vm_compute; reflexivity.
Defined.

(** ** More on a redraw *)








(** *** The number of requests of a redraw *)
















Example browsing_redraw_requests :
  shown_rows (table (after (code_exec_callback
                              (stream_msg (Some one_frame_text))) browsing))
  = 2.
Proof. vm_compute. reflexivity. Qed.

(** ** Replies that come late *)

(** X16: two clicks on the anchor of a column before the kernel has answered:
    each makes a wrapper and a request, and the second wrapper replaces
    the first in the cell.  The answer to the first request is then put
    into a wrapper that is no longer on the page: the cell still holds
    no output, and the next click will ask again. *)
Theorem second_request_orphans_the_first (s : State) (i j : nat) (c : Column)
    (msg : Message) :
  coherent s = true -> wrapper_visible s = true ->
  column_at s i j = Some c -> loaded_content s (col_content c) = false ->
  msg_type msg = "display_data" ->
  exists s1 s2 s3 c3,
    click_toggleColumn i j s = Done tt s1
    /\ click_toggleColumn i j s1 = Done tt s2
    /\ length (sent s2) = 2 + length (sent s)
    /\ deliver (length (sent s)) msg s2 = Done tt s3
    /\ column_at s3 i j = Some c3
    /\ col_content c3 = Attached (S (length (nodes s)))
    /\ loaded_content s3 (col_content c3) = false
    /\ node_outputs <$> nodes s3 !! length (nodes s) = Some [msg].
Proof.
  intros Hc Hv Hat Hl Hty.
  destruct (click_toggleColumn_at s i j c Hc Hat)
    as (s1 & c1 & H1 & Hc1 & Hv1 & Hat1 & Hid1 & _ & _ & Hload1).
  rewrite Hv, Hl in Hload1. simpl in Hload1.
  destruct Hload1 as (Hcont1 & Hnodes1 & Hsent1).
  assert (Hl1 : loaded_content s1 (col_content c1) = false).
  { unfold loaded_content. rewrite Hcont1. simpl.
    by rewrite Hnodes1, list_lookup_middle. }
  destruct (click_toggleColumn_at s1 i j c1 Hc1 Hat1)
    as (s2 & c2 & H2 & Hc2 & Hv2 & Hat2 & _ & _ & _ & Hload2).
  rewrite Hv1, Hv, Hl1 in Hload2. simpl in Hload2.
  destruct Hload2 as (Hcont2 & Hnodes2 & Hsent2).
  assert (Hlen : length (nodes s1) = S (length (nodes s)))
    by (rewrite Hnodes1, length_app; simpl; lia).
  assert (Hk : sent s2 !! length (sent s)
               = Some (column_request c (length (nodes s)))).
  { rewrite Hsent2, Hsent1, <- (assoc_L (++)). by apply list_lookup_middle. }
  exists s1, s2, (set_nodes (alter (add_output msg) (length (nodes s)) (nodes s2)) s2), c2.
  split; [done|]. split; [done|]. split.
  { rewrite Hsent2, Hsent1, !length_app. simpl. lia. }
  split; [by apply (deliver_display_data s2 _ _ _ msg Hk)|].
  split; [done|]. rewrite Hcont2, Hlen. split; [done|].
  unfold loaded_content. simpl. split.
  - rewrite list_lookup_alter_ne by lia.
    rewrite Hnodes2, <- Hlen. by rewrite list_lookup_middle.
  - rewrite list_lookup_alter, Hnodes2, Hnodes1, <- (assoc_L (++)).
    rewrite decide_True by done. simpl.
    by rewrite list_lookup_middle.
Qed.

Lemma second_request_orphans_the_first_witness :
  exists s1 s2 s3 c3,
    click_toggleColumn 0 0 opened = Done tt s1
    /\ click_toggleColumn 0 0 s1 = Done tt s2
    /\ length (sent s2) = 2 + length (sent opened)
    /\ deliver (length (sent opened)) display_data_msg s2 = Done tt s3
    /\ column_at s3 0 0 = Some c3
    /\ col_content c3 = Attached (S (length (nodes opened)))
    /\ loaded_content s3 (col_content c3) = false
    /\ node_outputs <$> nodes s3 !! length (nodes opened)
       = Some [display_data_msg].
Proof.
  apply (second_request_orphans_the_first opened 0 0 first_column);
    vm_compute; reflexivity.
Defined.











(** ** Pages in order *)















(** ** The badge and the reload button *)

(** X19: an initialisation hides the badge: the callback of [read_config]
    calls [datacleaner_button], whose callback adds the class [hidden]
    to the badge that exists.  The number on the badge, the table and
    the variable [n_dataframes] stay; the badge is shown again by the
    next poll reply that lists a dataframe. *)
Theorem initialisation_hides_the_badge (s : State) (b : Badge) :
  badge s = Some b ->
  exists s1 s2 s3,
    datacleaner_init s = Done tt s1
    /\ run_task (length (tasks s)) s1 = Done tt s2
    /\ run_task (S (length (tasks s))) s2 = Done tt s3
    /\ badge s3 = Some {| badge_hidden := true;
                          badge_content := badge_content b |}
    /\ table s3 = table s /\ n_dataframes s3 = n_dataframes s
    /\ tasks s3 = tasks s ++ [RefreshLoaded].
Proof.
  intros Hb.
  assert (Hlook : forall (l : list Task) t r, (l ++ t :: r) !! length l = Some t)
    by (intros; by apply list_lookup_middle).
  destruct s as [vis tb ns bd nd se co me cw sw di cl rh ta].
  simpl in Hb. subst bd.
  eexists _, _, _. split; [reflexivity|].
  rewrite run_task_unfold. simpl.
  rewrite <- (assoc_L (++)). simpl. rewrite Hlook, delete_middle.
  unfold run, config_loaded_callback, datacleaner_button, defer, modify, get,
    mbind, M_bind. cbv zeta. simpl.
  split; [reflexivity|].
  rewrite run_task_unfold. simpl.
  replace (S (length ta)) with (length (ta ++ [RefreshLoaded]))
    by (rewrite length_app; simpl; lia).
  rewrite Hlook, delete_middle. simpl.
  split; [reflexivity|]. simpl.
  by rewrite (right_id_L [] (++)).
Qed.

Lemma initialisation_hides_the_badge_witness :
  exists s1 s2 s3,
    datacleaner_init browsing = Done tt s1
    /\ run_task (length (tasks browsing)) s1 = Done tt s2
    /\ run_task (S (length (tasks browsing))) s2 = Done tt s3
    /\ badge s3 = Some {| badge_hidden := true; badge_content := Some 1 |}
    /\ table s3 = table browsing /\ n_dataframes s3 = n_dataframes browsing
    /\ tasks s3 = tasks browsing ++ [RefreshLoaded].
Proof.
  apply (initialisation_hides_the_badge browsing
           {| badge_hidden := false; badge_content := Some 1 |}).
  vm_compute. reflexivity.
Defined.

(** X20: [varRefresh], which the script exports and which the reload button
    and every executed cell call: once the sorter module is there it
    sends the introspection command once, with [code_exec_callback] as
    its handler, and changes nothing else, whether the panel is visible
    or hidden. *)
Theorem reload_polls_once (s : State) :
  exists s1,
    click_reload s = Done tt s1
    /\ run_task (length (tasks s)) s1
       = Done tt (set_sent (sent s ++ [poll_request]) s).
Proof.
  eexists. split; [reflexivity|].
  rewrite (run_task_at_end _ (tasks s) RefreshLoaded) by done.
  unfold run, refresh_loaded_callback, execute, modify. simpl.
  by destruct s.
Qed.

(** ** The answer to a request of a redraw *)




(** ** The badge and the table *)














